(** * clipd: clipboard synchronisation hub and terminal client

    A shallow embedding of the Go sources of the clipboard server
    (the hub: [runHub], [handleConnections], [readLoop]) and of the
    terminal client ([Model.Update], [connectCmd] and the other commands),
    followed by the properties of the specification that were checked
    against them.

    Conventions of the embedding:
    - a [*websocket.Conn] is a connection reference (a number standing for
      the pointer); closing and writing are recorded as effects;
    - the package-level variables of the server are the fields of one
      state record, passed explicitly;
    - a value of type [interface{}] is a sum over the dynamic types the
      program puts in it, because [runHub] switches on the dynamic type;
    - Go maps are [gmap]s; iteration order over a Go map is unspecified, and
      every statement below about a set of recipients is about membership. *)

From Stdlib Require Import ZArith Lia.
From stdpp Require Import gmap strings list fin_maps.

Local Open Scope string_scope.
Local Open Scope list_scope.
Local Open Scope nat_scope.
Local Set Warnings "-register-all".

(** ** Wire data shared by server and client *)

(** JSON documents as [encoding/json] sees them. Numbers are integers here:
    the only numeric field of the protocol is [filesize]. *)
Inductive JSON : Type :=
| JNull
| JBool (b : bool)
| JNumber (n : Z)
| JString (s : string)
| JArray (elems : list JSON)
| JObject (fields : list (string * JSON)).

Definition ConnRef := nat.

Record ClientInfo := mkClientInfo {
  ID : string;
  Conn : option ConnRef;     (* json:"-", absent on the client side *)
  Hostname : string
}.

Record ClipboardUpdateData := mkClipboardUpdateData { Content : string }.
Record ClipboardHistoryData := mkClipboardHistoryData { History : list string }.
Record DeviceListData := mkDeviceListData { Devices : list ClientInfo }.
Record FileOfferData := mkFileOfferData {
  OfferFilename : string;
  Filesize : Z;
  TargetID : string
}.
Record FileAckData := mkFileAckData {
  AckFilename : string;
  Allow : bool;
  SourceID : string
}.

(** The dynamic type of a [Data interface{}] field. [json.Unmarshal] into an
    [interface{}] only ever produces [ANil] (for null) or [AJSON] (a
    [map[string]interface{}], string, float64, bool or slice); the struct
    cases arise when the program itself stores a struct in the field. *)
Inductive Any : Type :=
| ANil
| AJSON (j : JSON)
| AClipboardUpdateData (d : ClipboardUpdateData)
| AClipboardHistoryData (d : ClipboardHistoryData)
| ADeviceListData (d : DeviceListData)
| AFileOfferData (d : FileOfferData)
| AFileAckData (d : FileAckData).

Record BaseMessage := mkBaseMessage {
  Type_ : string;
  Data : Any;
  SenderID : string
}.

(** *** encoding/json, as far as the program uses it *)

Fixpoint lookupField (k : string) (fields : list (string * JSON)) : option JSON :=
  match fields with
  | [] => None
  | (k', v) :: rest => if String.eqb k k' then Some v else lookupField k rest
  end.

(** Decoding one struct field: an absent key or a null leaves the zero
    value, a value of the wrong JSON kind is an error. Keys are matched by
    their exact name. *)
Definition fieldString (k : string) (fields : list (string * JSON)) : option string :=
  match lookupField k fields with
  | None | Some JNull => Some ""
  | Some (JString s) => Some s
  | Some _ => None
  end.

Definition fieldBool (k : string) (fields : list (string * JSON)) : option bool :=
  match lookupField k fields with
  | None | Some JNull => Some false
  | Some (JBool b) => Some b
  | Some _ => None
  end.

Definition fieldInt (k : string) (fields : list (string * JSON)) : option Z :=
  match lookupField k fields with
  | None | Some JNull => Some 0%Z
  | Some (JNumber n) => Some n
  | Some _ => None
  end.

Fixpoint allStrings (l : list JSON) : option (list string) :=
  match l with
  | [] => Some []
  | JString s :: rest =>
      match allStrings rest with Some r => Some (s :: r) | None => None end
  | JNull :: rest =>
      match allStrings rest with Some r => Some ("" :: r) | None => None end
  | _ :: _ => None
  end.

Definition fieldStrings (k : string) (fields : list (string * JSON)) : option (list string) :=
  match lookupField k fields with
  | None | Some JNull => Some []
  | Some (JArray l) => allStrings l
  | Some _ => None
  end.

Definition jsonOfClientInfo (c : ClientInfo) : JSON :=
  JObject [("id", JString (ID c)); ("hostname", JString (Hostname c))].

(** [json.Marshal] of a [Data] value. [targetId] carries [omitempty]. *)
Definition marshalAny (a : Any) : JSON :=
  match a with
  | ANil => JNull
  | AJSON j => j
  | AClipboardUpdateData d => JObject [("content", JString (Content d))]
  | AClipboardHistoryData d => JObject [("history", JArray (map JString (History d)))]
  | ADeviceListData d => JObject [("devices", JArray (map jsonOfClientInfo (Devices d)))]
  | AFileOfferData d =>
      JObject ([("filename", JString (OfferFilename d)); ("filesize", JNumber (Filesize d))]
               ++ (if String.eqb (TargetID d) "" then [] else [("targetId", JString (TargetID d))]))
  | AFileAckData d =>
      JObject [("filename", JString (AckFilename d)); ("allow", JBool (Allow d));
               ("sourceId", JString (SourceID d))]
  end.

(** [json.Unmarshal] of a document into a struct: null is accepted and
    leaves the zero value, an object is decoded field by field, anything
    else is an error. [None] stands for [err != nil]. *)
Definition unmarshalStruct {A : Type} (zero : A)
    (fromFields : list (string * JSON) -> option A) (j : JSON) : option A :=
  match j with
  | JNull => Some zero
  | JObject fields => fromFields fields
  | _ => None
  end.

Definition decodeClipboardUpdate : JSON -> option ClipboardUpdateData :=
  unmarshalStruct (mkClipboardUpdateData "")
    (fun fs => match fieldString "content" fs with
               | Some c => Some (mkClipboardUpdateData c)
               | None => None
               end).

Definition decodeClipboardHistory : JSON -> option ClipboardHistoryData :=
  unmarshalStruct (mkClipboardHistoryData [])
    (fun fs => match fieldStrings "history" fs with
               | Some h => Some (mkClipboardHistoryData h)
               | None => None
               end).

Definition decodeFileOffer : JSON -> option FileOfferData :=
  unmarshalStruct (mkFileOfferData "" 0 "")
    (fun fs => match fieldString "filename" fs, fieldInt "filesize" fs,
                     fieldString "targetId" fs with
               | Some f, Some n, Some t => Some (mkFileOfferData f n t)
               | _, _, _ => None
               end).

Definition decodeFileAck : JSON -> option FileAckData :=
  unmarshalStruct (mkFileAckData "" false "")
    (fun fs => match fieldString "filename" fs, fieldBool "allow" fs,
                     fieldString "sourceId" fs with
               | Some f, Some a, Some s => Some (mkFileAckData f a s)
               | _, _, _ => None
               end).

Definition decodeClientInfo : JSON -> option ClientInfo :=
  unmarshalStruct (mkClientInfo "" None "")
    (fun fs => match fieldString "id" fs, fieldString "hostname" fs with
               | Some i, Some h => Some (mkClientInfo i None h)
               | _, _ => None
               end).

Fixpoint allClientInfos (l : list JSON) : option (list ClientInfo) :=
  match l with
  | [] => Some []
  | j :: rest =>
      match decodeClientInfo j, allClientInfos rest with
      | Some c, Some r => Some (c :: r)
      | _, _ => None
      end
  end.

Definition decodeDeviceList : JSON -> option DeviceListData :=
  unmarshalStruct (mkDeviceListData [])
    (fun fs => match lookupField "devices" fs with
               | None | Some JNull => Some (mkDeviceListData [])
               | Some (JArray l) =>
                   match allClientInfos l with
                   | Some ds => Some (mkDeviceListData ds)
                   | None => None
                   end
               | Some _ => None
               end).

(** [RemarshalData(data, &target)]: marshal the dynamic value, then
    unmarshal the bytes into the target struct. *)
Definition RemarshalData {A : Type} (decode : JSON -> option A) (data : Any) : option A :=
  decode (marshalAny data).

(** [json.Unmarshal(p, &msg)] for a [BaseMessage]: [Data] receives the
    generic decoding of the ["data"] member. *)
Definition unmarshalData (j : JSON) : Any :=
  match j with
  | JNull => ANil
  | _ => AJSON j
  end.

Definition unmarshalBaseMessage : JSON -> option BaseMessage :=
  unmarshalStruct (mkBaseMessage "" ANil "")
    (fun fs => match fieldString "type" fs, fieldString "senderId" fs with
               | Some t, Some s =>
                   Some (mkBaseMessage t
                           (match lookupField "data" fs with
                            | Some j => unmarshalData j
                            | None => ANil
                            end) s)
               | _, _ => None
               end).

(** A frame read from a websocket. *)
Inductive Frame : Type :=
| TextMessage (payload : option JSON)   (* [None]: bytes that are not JSON *)
| BinaryMessage (len : nat).

(** ** The server *)



Module Server.

Definition maxHistorySize : nat := 20.

(** The package-level variables: the registry [clients], the clipboard
    store ([currentClip], [clipboardHistory]) and the configured key. *)
Record State := mkState {
  clients : gmap string ClientInfo;
  currentClip : string;
  clipboardHistory : list string;
  apiKey : string
}.

(** What [main] leaves before the first connection. *)
Definition initState (key : string) : State := mkState ∅ "" [] key.

Definition withClients (st : State) (cs : gmap string ClientInfo) : State :=
  mkState cs (currentClip st) (clipboardHistory st) (apiKey st).

(** Observable actions of the server's goroutines. *)
Inductive Effect : Type :=
| WriteTo (c : ClientInfo) (m : BaseMessage)   (* writeToClient(c, TextMessage, Marshal(m)) *)
| CloseConn (conn : option ConnRef)            (* close(client.Conn) *)
| SendBroadcast (m : BaseMessage)              (* broadcast <- m *)
| TrySendBroadcast (m : BaseMessage)           (* select { case broadcast <- m: default: } *)
| SendRegister (c : ClientInfo)                (* register <- client *)
| SendUnregister (c : ClientInfo)              (* unregister <- client *)
| HttpError (code : nat) (body : string)
| RunReadLoop (c : ClientInfo).

(** What the hub receives on its three channels. *)
Inductive HubEvent : Type :=
| Register (c : ClientInfo)
| Unregister (c : ClientInfo)
| Broadcast (m : BaseMessage).

(** The snapshot [activeClients] taken under the read lock. *)
Definition activeClients (cs : gmap string ClientInfo) : list ClientInfo :=
  (map_to_list cs).*2.

Definition deviceList (cs : gmap string ClientInfo) : list ClientInfo :=
  map (fun c => mkClientInfo (ID c) None (Hostname c)) (activeClients cs).

Definition deviceListMessage (cs : gmap string ClientInfo) : BaseMessage :=
  mkBaseMessage "device_list" (ADeviceListData (mkDeviceListData (deviceList cs))) "".

Definition broadcastDeviceListUpdate (cs : gmap string ClientInfo) : list Effect :=
  [TrySendBroadcast (deviceListMessage cs)].

Definition connEqb (a b : option ConnRef) : bool :=
  match a, b with
  | Some x, Some y => Nat.eqb x y
  | None, None => true
  | _, _ => false
  end.

(** The type switch on [message.Data] inside the broadcast loop. *)
Definition targetted (message : BaseMessage) (client : ClientInfo) : bool :=
  match Data message with
  | AFileAckData data =>
      String.eqb (Type_ message) "file_ack" && negb (String.eqb (ID client) (SourceID data))
  | AFileOfferData data =>
      if String.eqb (Type_ message) "file_offer" then
        (negb (String.eqb (TargetID data) "") && negb (String.eqb (ID client) (TargetID data)))
        || String.eqb (ID client) (SenderID message)
      else false
  | _ => false
  end.

(** The loop [for _, client := range activeClients] of the broadcast case. *)
Fixpoint deliver (message : BaseMessage) (active : list ClientInfo) : list Effect :=
  match active with
  | [] => []
  | client :: rest =>
      if String.eqb (Type_ message) "clipboard_update"
         && String.eqb (ID client) (SenderID message)
      then deliver message rest
      else if targetted message client
      then deliver message rest
      else WriteTo client message :: deliver message rest
  end.

(** One iteration of the [for { select { ... } }] of [runHub]. Marshalling
    the message cannot fail for the values of this protocol. *)
Definition runHub (st : State) (ev : HubEvent) : State * list Effect :=
  match ev with
  | Register client =>
      let cs := <[ID client := client]> (clients st) in
      (withClients st cs, broadcastDeviceListUpdate cs)
  | Unregister client =>
      match clients st !! ID client with
      | Some existingClient =>
          if connEqb (Conn existingClient) (Conn client) then
            let cs := delete (ID client) (clients st) in
            (withClients st cs, CloseConn (Conn client) :: broadcastDeviceListUpdate cs)
          else (st, broadcastDeviceListUpdate (clients st))
      | None => (st, broadcastDeviceListUpdate (clients st))
      end
  | Broadcast message =>
      (st, deliver message (activeClients (clients st)))
  end.

(** The hub run over the events in their order of arrival. *)
Fixpoint runHubTrace (st : State) (evs : list HubEvent) : State * list Effect :=
  match evs with
  | [] => (st, [])
  | ev :: rest =>
      let '(st1, out1) := runHub st ev in
      let '(st2, out2) := runHubTrace st1 rest in
      (st2, out1 ++ out2)
  end.

(** The clipboard_update case of [readLoop], between [clipboardLock.Lock()]
    and [clipboardLock.Unlock()]. The boolean tells whether the store
    changed; the broadcast is sent exactly then. *)
Definition setIfChanged (st : State) (content : string) : State * bool :=
  if negb (String.eqb (currentClip st) content) then
    let history := content :: clipboardHistory st in
    (mkState (clients st) content
       (if Nat.ltb maxHistorySize (length history) then take maxHistorySize history else history)
       (apiKey st), true)
  else (st, false).

Definition clipboardUpdate (st : State) (client : ClientInfo) (data : ClipboardUpdateData)
  : State * list Effect :=
  let '(st', changed) := setIfChanged st (Content data) in
  (st', if changed
        then [SendBroadcast (mkBaseMessage "clipboard_update" (AClipboardUpdateData data) (ID client))]
        else []).

(** The body of the read loop for one text frame already decoded into
    [msg] (before the sender id is injected). *)
Definition handleText (st : State) (client : ClientInfo) (msg0 : BaseMessage)
  : State * list Effect :=
  let msg := mkBaseMessage (Type_ msg0) (Data msg0) (ID client) in
  if String.eqb (Type_ msg) "clipboard_update" then
    match RemarshalData decodeClipboardUpdate (Data msg) with
    | Some data => clipboardUpdate st client data
    | None => (st, [])
    end
  else if String.eqb (Type_ msg) "request_devices" then
    (st, [WriteTo client (deviceListMessage (clients st))])
  else if String.eqb (Type_ msg) "file_offer" then
    match RemarshalData decodeFileOffer (Data msg) with
    | Some _ => (st, [SendBroadcast msg])
    | None => (st, [])
    end
  else if String.eqb (Type_ msg) "file_ack" then
    match RemarshalData decodeFileAck (Data msg) with
    | Some _ => (st, [SendBroadcast msg])
    | None => (st, [])
    end
  else (st, []).

Definition handleFrame (st : State) (client : ClientInfo) (f : Frame) : State * list Effect :=
  match f with
  | TextMessage None => (st, [])
  | TextMessage (Some j) =>
      match unmarshalBaseMessage j with
      | Some msg => handleText st client msg
      | None => (st, [])
      end
  | BinaryMessage _ => (st, [])
  end.

(** [readLoop]: frames are handled until [ReadMessage] fails ([None]). *)
Fixpoint readLoop (st : State) (client : ClientInfo) (reads : list (option Frame))
  : State * list Effect :=
  match reads with
  | [] => (st, [])
  | None :: _ => (st, [])
  | Some f :: rest =>
      let '(st1, out1) := handleFrame st client f in
      let '(st2, out2) := readLoop st1 client rest in
      (st2, out1 ++ out2)
  end.

(** [r.URL.Query().Get(key)]: the first value of the key, or the empty
    string. *)
Definition queryGet (q : gmap string (list string)) (key : string) : string :=
  match q !! key with
  | Some (v :: _) => v
  | _ => ""
  end.

(** [handleConnections] up to the call of [readLoop]. [upgrade] is the
    result of [upgrader.Upgrade], [newID] that of [uuid.NewString()];
    [st] is the store when [currentClip] is read and [st'] the store when
    the history is copied (each read takes its own lock). *)
Definition handleConnections (st st' : State) (q : gmap string (list string))
    (upgrade : option ConnRef) (newID : string) : list Effect :=
  if negb (String.eqb (queryGet q "apiKey") (apiKey st)) then
    [HttpError 403 "Forbidden: Invalid API Key"]
  else
    let hostname := queryGet q "hostname" in
    let hostname := if String.eqb hostname "" then "Unknown" else hostname in
    match upgrade with
    | None => []
    | Some ws =>
        let client := mkClientInfo newID (Some ws) hostname in
        [SendRegister client]
        ++ (let current := currentClip st in
            if negb (String.eqb current "")
            then [WriteTo client (mkBaseMessage "clipboard_update"
                                    (AClipboardUpdateData (mkClipboardUpdateData current)) "")]
            else [])
        ++ (let historyCopy := clipboardHistory st' in
            if Nat.ltb 0 (length historyCopy)
            then [WriteTo client (mkBaseMessage "clipboard_history"
                                    (AClipboardHistoryData (mkClipboardHistoryData historyCopy)) "")]
            else [])
        ++ [RunReadLoop client; SendUnregister client]
    end.

(** *** Notions used to state the properties of the server *)

(** A sequence of clipboard updates applied to the store. *)
Definition applyUpdates (st : State) (contents : list string) : State :=
  fold_left (fun s c => fst (setIfChanged s c)) contents st.

(** The invariant of the clipboard store. *)
Definition storeInv (st : State) : Prop :=
  (currentClip st ≠ "" → head (clipboardHistory st) = Some (currentClip st))
  ∧ length (clipboardHistory st) ≤ maxHistorySize.

Definition isClose (conn : option ConnRef) (e : Effect) : bool :=
  match e with
  | CloseConn c => connEqb c conn
  | _ => false
  end.

(** How many times a connection is closed in a run. *)
Definition closesOf (conn : option ConnRef) (out : list Effect) : nat :=
  length (List.filter (isClose conn) out).

(** The connection of [c] belongs to no other registry entry. *)
Definition connOwned (c : ClientInfo) (st : State) : Prop :=
  ∀ k e, clients st !! k = Some e → Conn e = Conn c → k = ID c.

(** An event that does not admit a device under the id or with the
    connection of [c] (ids are fresh UUIDs, every upgrade yields a new
    connection). *)
Definition foreign (c : ClientInfo) (ev : HubEvent) : Prop :=
  match ev with
  | Register c' => ID c' ≠ ID c ∧ Conn c' ≠ Conn c
  | _ => True
  end.






(** Whether the broadcast loop passes over [client] for [message]. *)
Definition skipped (message : BaseMessage) (client : ClientInfo) : bool :=
  (String.eqb (Type_ message) "clipboard_update"
   && String.eqb (ID client) (SenderID message))
  || targetted message client.

(** A [Data] value as [json.Unmarshal] leaves it in an [interface{}]. *)
Definition untyped (a : Any) : bool :=
  match a with
  | ANil | AJSON _ => true
  | _ => false
  end.

(** Twenty distinct clipboard values, filling the history. *)
Definition twentyValues : list string :=
  ["1"; "2"; "3"; "4"; "5"; "6"; "7"; "8"; "9"; "10";
   "11"; "12"; "13"; "14"; "15"; "16"; "17"; "18"; "19"; "20"].

(** A registry of three devices, used in the examples. *)
Definition devA : ClientInfo := mkClientInfo "A" (Some 1) "alpha".
Definition devB : ClientInfo := mkClientInfo "B" (Some 2) "beta".
Definition devC : ClientInfo := mkClientInfo "C" (Some 3) "gamma".

Definition threeDevices : State :=
  mkState (<["A" := devA]> (<["B" := devB]> (<["C" := devC]> ∅))) "" [] "secret".

(** B answers A's offer: [file_ack{filename, allow, sourceId: "A"}]. *)
Definition ackFrame : Frame :=
  TextMessage (Some (JObject
    [("type", JString "file_ack");
     ("data", JObject [("filename", JString "x.txt"); ("allow", JBool true);
                       ("sourceId", JString "A")])])).

(** A offers a file to B: [file_offer{filename, filesize, targetId: "B"}]. *)
Definition offerFrame : Frame :=
  TextMessage (Some (JObject
    [("type", JString "file_offer");
     ("data", JObject [("filename", JString "x.txt"); ("filesize", JNumber 100);
                       ("targetId", JString "B")])])).

(** No value occurs twice in a row. *)
Fixpoint noAdjacentDup (l : list string) : Prop :=
  match l with
  | a :: rest =>
      match rest with
      | b :: _ => a ≠ b
      | [] => True
      end ∧ noAdjacentDup rest
  | [] => True
  end.

(** The store either never changed or shows its current value first. *)
Definition headIsCurrent (st : State) : Prop :=
  (clipboardHistory st = [] ∧ currentClip st = "")
  ∨ head (clipboardHistory st) = Some (currentClip st).

(** [c] is an entry of the registry. *)
Definition registered (st : State) (c : ClientInfo) : Prop :=
  ∃ k, clients st !! k = Some c.

(** The message the read loop puts on the broadcast channel for a changed
    clipboard value. *)
Definition updateBroadcast (client : ClientInfo) (content : string) : BaseMessage :=
  mkBaseMessage "clipboard_update" (AClipboardUpdateData (mkClipboardUpdateData content))
    (ID client).

End Server.

(** ** The terminal client *)

Module Client.

Definition maxHistorySize : nat := 20.
Definition maxLogLines : nat := 200.

Inductive ConnectionState : Type := Connecting | Connected | Disconnected.

Inductive FocusablePane : Type := HistoryPane | DevicesPane | LogPane.

Definition NumPanes : Z := 3.

Definition paneNum (p : FocusablePane) : Z :=
  match p with HistoryPane => 0 | DevicesPane => 1 | LogPane => 2 end.

Definition paneOfNum (n : Z) : FocusablePane :=
  if Z.eqb n 0 then HistoryPane else if Z.eqb n 1 then DevicesPane else LogPane.

Definition paneEqb (a b : FocusablePane) : bool := Z.eqb (paneNum a) (paneNum b).

Definition stateEqb (a b : ConnectionState) : bool :=
  match a, b with
  | Connecting, Connecting | Connected, Connected | Disconnected, Disconnected => true
  | _, _ => false
  end.

(** The identity of a [context.CancelFunc]. *)
Definition CancelRef := nat.

(** A line handed to [logf]: the format and its arguments (the time stamp
    in front of it is left out). *)
Inductive LogArg : Type :=
| LStr (s : string)
| LInt (n : Z)
| LBool (b : bool).

Record LogLine := mkLogLine { format : string; args : list LogArg }.

(** The fields of [Model] that [Update] reads or writes. Of the list
    components only the items (and the cursor of the device list, which
    [SelectedItem] reads) are kept; spinner, viewport and help are
    rendering state. *)
Record Model := mkModel {
  serverURL : string;
  apiKey : string;
  hostname : string;
  connectedState : ConnectionState;
  syncEnabled : bool;
  lastError : option string;
  logMessages : list LogLine;
  wsConn : option ConnRef;
  wsCtxCancel : option CancelRef;
  lastSentClip : string;
  lastRcvdClip : string;
  focus : FocusablePane;
  incomingFileOffer : option FileOfferData;
  offeringClientID : string;
  devicesMap : gmap string string;
  histList : list string;
  deviceList : list ClientInfo;
  deviceCursor : nat;
  width : Z;
  height : Z;
  ready : bool
}.

Definition set_connectedState (v : ConnectionState) (m : Model) : Model :=
  mkModel (serverURL m) (apiKey m) (hostname m) v (syncEnabled m) (lastError m) (logMessages m) (wsConn m) (wsCtxCancel m) (lastSentClip m) (lastRcvdClip m) (focus m) (incomingFileOffer m) (offeringClientID m) (devicesMap m) (histList m) (deviceList m) (deviceCursor m) (width m) (height m) (ready m).
Definition set_syncEnabled (v : bool) (m : Model) : Model :=
  mkModel (serverURL m) (apiKey m) (hostname m) (connectedState m) v (lastError m) (logMessages m) (wsConn m) (wsCtxCancel m) (lastSentClip m) (lastRcvdClip m) (focus m) (incomingFileOffer m) (offeringClientID m) (devicesMap m) (histList m) (deviceList m) (deviceCursor m) (width m) (height m) (ready m).
Definition set_lastError (v : option string) (m : Model) : Model :=
  mkModel (serverURL m) (apiKey m) (hostname m) (connectedState m) (syncEnabled m) v (logMessages m) (wsConn m) (wsCtxCancel m) (lastSentClip m) (lastRcvdClip m) (focus m) (incomingFileOffer m) (offeringClientID m) (devicesMap m) (histList m) (deviceList m) (deviceCursor m) (width m) (height m) (ready m).
Definition set_logMessages (v : list LogLine) (m : Model) : Model :=
  mkModel (serverURL m) (apiKey m) (hostname m) (connectedState m) (syncEnabled m) (lastError m) v (wsConn m) (wsCtxCancel m) (lastSentClip m) (lastRcvdClip m) (focus m) (incomingFileOffer m) (offeringClientID m) (devicesMap m) (histList m) (deviceList m) (deviceCursor m) (width m) (height m) (ready m).
Definition set_wsConn (v : option ConnRef) (m : Model) : Model :=
  mkModel (serverURL m) (apiKey m) (hostname m) (connectedState m) (syncEnabled m) (lastError m) (logMessages m) v (wsCtxCancel m) (lastSentClip m) (lastRcvdClip m) (focus m) (incomingFileOffer m) (offeringClientID m) (devicesMap m) (histList m) (deviceList m) (deviceCursor m) (width m) (height m) (ready m).
Definition set_wsCtxCancel (v : option CancelRef) (m : Model) : Model :=
  mkModel (serverURL m) (apiKey m) (hostname m) (connectedState m) (syncEnabled m) (lastError m) (logMessages m) (wsConn m) v (lastSentClip m) (lastRcvdClip m) (focus m) (incomingFileOffer m) (offeringClientID m) (devicesMap m) (histList m) (deviceList m) (deviceCursor m) (width m) (height m) (ready m).
Definition set_lastSentClip (v : string) (m : Model) : Model :=
  mkModel (serverURL m) (apiKey m) (hostname m) (connectedState m) (syncEnabled m) (lastError m) (logMessages m) (wsConn m) (wsCtxCancel m) v (lastRcvdClip m) (focus m) (incomingFileOffer m) (offeringClientID m) (devicesMap m) (histList m) (deviceList m) (deviceCursor m) (width m) (height m) (ready m).
Definition set_lastRcvdClip (v : string) (m : Model) : Model :=
  mkModel (serverURL m) (apiKey m) (hostname m) (connectedState m) (syncEnabled m) (lastError m) (logMessages m) (wsConn m) (wsCtxCancel m) (lastSentClip m) v (focus m) (incomingFileOffer m) (offeringClientID m) (devicesMap m) (histList m) (deviceList m) (deviceCursor m) (width m) (height m) (ready m).
Definition set_focus (v : FocusablePane) (m : Model) : Model :=
  mkModel (serverURL m) (apiKey m) (hostname m) (connectedState m) (syncEnabled m) (lastError m) (logMessages m) (wsConn m) (wsCtxCancel m) (lastSentClip m) (lastRcvdClip m) v (incomingFileOffer m) (offeringClientID m) (devicesMap m) (histList m) (deviceList m) (deviceCursor m) (width m) (height m) (ready m).
Definition set_incomingFileOffer (v : option FileOfferData) (m : Model) : Model :=
  mkModel (serverURL m) (apiKey m) (hostname m) (connectedState m) (syncEnabled m) (lastError m) (logMessages m) (wsConn m) (wsCtxCancel m) (lastSentClip m) (lastRcvdClip m) (focus m) v (offeringClientID m) (devicesMap m) (histList m) (deviceList m) (deviceCursor m) (width m) (height m) (ready m).
Definition set_offeringClientID (v : string) (m : Model) : Model :=
  mkModel (serverURL m) (apiKey m) (hostname m) (connectedState m) (syncEnabled m) (lastError m) (logMessages m) (wsConn m) (wsCtxCancel m) (lastSentClip m) (lastRcvdClip m) (focus m) (incomingFileOffer m) v (devicesMap m) (histList m) (deviceList m) (deviceCursor m) (width m) (height m) (ready m).
Definition set_devicesMap (v : gmap string string) (m : Model) : Model :=
  mkModel (serverURL m) (apiKey m) (hostname m) (connectedState m) (syncEnabled m) (lastError m) (logMessages m) (wsConn m) (wsCtxCancel m) (lastSentClip m) (lastRcvdClip m) (focus m) (incomingFileOffer m) (offeringClientID m) v (histList m) (deviceList m) (deviceCursor m) (width m) (height m) (ready m).
Definition set_histList (v : list string) (m : Model) : Model :=
  mkModel (serverURL m) (apiKey m) (hostname m) (connectedState m) (syncEnabled m) (lastError m) (logMessages m) (wsConn m) (wsCtxCancel m) (lastSentClip m) (lastRcvdClip m) (focus m) (incomingFileOffer m) (offeringClientID m) (devicesMap m) v (deviceList m) (deviceCursor m) (width m) (height m) (ready m).
Definition set_deviceList (v : list ClientInfo) (m : Model) : Model :=
  mkModel (serverURL m) (apiKey m) (hostname m) (connectedState m) (syncEnabled m) (lastError m) (logMessages m) (wsConn m) (wsCtxCancel m) (lastSentClip m) (lastRcvdClip m) (focus m) (incomingFileOffer m) (offeringClientID m) (devicesMap m) (histList m) v (deviceCursor m) (width m) (height m) (ready m).
Definition set_deviceCursor (v : nat) (m : Model) : Model :=
  mkModel (serverURL m) (apiKey m) (hostname m) (connectedState m) (syncEnabled m) (lastError m) (logMessages m) (wsConn m) (wsCtxCancel m) (lastSentClip m) (lastRcvdClip m) (focus m) (incomingFileOffer m) (offeringClientID m) (devicesMap m) (histList m) (deviceList m) v (width m) (height m) (ready m).
Definition set_width (v : Z) (m : Model) : Model :=
  mkModel (serverURL m) (apiKey m) (hostname m) (connectedState m) (syncEnabled m) (lastError m) (logMessages m) (wsConn m) (wsCtxCancel m) (lastSentClip m) (lastRcvdClip m) (focus m) (incomingFileOffer m) (offeringClientID m) (devicesMap m) (histList m) (deviceList m) (deviceCursor m) v (height m) (ready m).
Definition set_height (v : Z) (m : Model) : Model :=
  mkModel (serverURL m) (apiKey m) (hostname m) (connectedState m) (syncEnabled m) (lastError m) (logMessages m) (wsConn m) (wsCtxCancel m) (lastSentClip m) (lastRcvdClip m) (focus m) (incomingFileOffer m) (offeringClientID m) (devicesMap m) (histList m) (deviceList m) (deviceCursor m) (width m) v (ready m).
Definition set_ready (v : bool) (m : Model) : Model :=
  mkModel (serverURL m) (apiKey m) (hostname m) (connectedState m) (syncEnabled m) (lastError m) (logMessages m) (wsConn m) (wsCtxCancel m) (lastSentClip m) (lastRcvdClip m) (focus m) (incomingFileOffer m) (offeringClientID m) (devicesMap m) (histList m) (deviceList m) (deviceCursor m) (width m) (height m) v.

Definition NewModel (serverURL apiKey hostname : string) : Model :=
  mkModel serverURL apiKey hostname Disconnected true None
    [mkLogLine "Initializing..." []] None None "" "" HistoryPane None "" ∅ [] [] 0 0 0 false.

(** Messages delivered to [Update]. An [error] is its text. *)
Inductive Msg : Type :=
| WindowSizeMsg (Width Height : Z)
| KeyMsg (key : string) (moved : nat)
    (* [moved]: where the device list puts its cursor when the key is
       forwarded to it (the component is external) *)
| SpinnerTickMsg
| ConnectionStatusMsg (Status : ConnectionState) (Err : option string)
    (Conn_ : option ConnRef) (Cancel : option CancelRef)
| ReceivedServerMsg (Msg_ : BaseMessage)
| LocalClipboardCheckedMsg (Content_ : string) (Changed : bool) (Err : option string)
| ErrorMsg (Err : string)
| LogMsg (text : string)
| OtherMsg.

(** Commands returned by [Update] ([tea.Batch] is the list). *)
Inductive Cmd : Type :=
| SpinnerCmd                                   (* from spinner.Tick / spinner.Update *)
| ComponentCmd (pane : FocusablePane)          (* from the focused component's Update *)
| connectCmd (serverURL apiKey hostname : string)
| listenWebSocketCmd (conn : option ConnRef)   (* its context is context.Background() *)
| checkLocalClipboardCmd (lastContent : string)
| sendWebsocketMessageCmd (conn : option ConnRef) (message : BaseMessage)
| writeToClipboardCmd (content : string)
| TickCheckClipboard (lastContent : string)    (* tea.Tick(2s): checkLocalClipboardCmd *)
| Quit.

(** What [Update] does besides returning a model and commands. *)
Inductive SideEffect : Type :=
| CancelCalled (c : CancelRef)                 (* m.wsCtxCancel() *)
| WriteCloseMessage (conn : ConnRef)           (* WriteMessage(CloseMessage, ...) *)
| ConnClosed (conn : ConnRef).                 (* m.wsConn.Close() *)

Definition Init (m : Model) : list Cmd :=
  [SpinnerCmd; connectCmd (serverURL m) (apiKey m) (hostname m)].

(** [logf]: append the entry and keep the last [maxLogLines]. *)
Definition logf (fmt : string) (a : list LogArg) (m : Model) : Model :=
  let msgs := logMessages m ++ [mkLogLine fmt a] in
  set_logMessages
    (if Nat.ltb maxLogLines (length msgs) then drop (length msgs - maxLogLines) msgs else msgs) m.

(** [defaultKeyMap] and [key.Matches]. *)
Record keyMap := mkKeyMap {
  kQuit : list string; kToggleSync : list string; kFocusNext : list string;
  kFocusPrev : list string; kAcceptFile : list string; kRejectFile : list string;
  kInitiateXfer : list string
}.

Definition defaultKeyMap : keyMap :=
  mkKeyMap ["ctrl+c"; "q"] ["s"] ["tab"] ["shift+tab"] ["a"] ["r"] ["x"].

Definition keyMatches (k : string) (binding : list string) : bool :=
  existsb (String.eqb k) binding.

(** [list.Model]: [InsertItem], [RemoveItem], [SelectedItem]. *)
Definition InsertItem {A : Type} (index : nat) (item : A) (items : list A) : list A :=
  take index items ++ item :: drop index items.

Definition RemoveItem {A : Type} (index : nat) (items : list A) : list A :=
  take index items ++ drop (S index) items.

Definition SelectedItem (m : Model) : option ClientInfo :=
  nth_error (deviceList m) (deviceCursor m).

Definition devicesMapGet (m : Model) (id : string) : string :=
  match devicesMap m !! id with Some h => h | None => "" end.

(** The tail of [Update] after the main switch. *)
Definition finish (m : Model) (cmds : list Cmd) (effs : list SideEffect)
  : Model * list Cmd * list SideEffect :=
  (m, cmds ++ (if stateEqb (connectedState m) Connecting then [SpinnerCmd] else []), effs).

Definition fileAck (m : Model) (offer : FileOfferData) (allow : bool) : BaseMessage :=
  mkBaseMessage "file_ack"
    (AFileAckData (mkFileAckData (OfferFilename offer) allow (offeringClientID m))) "".

Definition updateKey (m : Model) (k : string) (moved : nat)
  : Model * list Cmd * list SideEffect :=
  let keys := defaultKeyMap in
  if keyMatches k (kQuit keys) then
    let m := logf "Quitting..." [] m in
    (m, [Quit],
     (match wsCtxCancel m with Some c => [CancelCalled c] | None => [] end)
     ++ (match wsConn m with Some c => [WriteCloseMessage c; ConnClosed c] | None => [] end))
  else if keyMatches k (kToggleSync keys) then
    let m := set_syncEnabled (negb (syncEnabled m)) m in
    let m := logf "Clipboard sync %s"
               [LStr (if syncEnabled m then "enabled" else "disabled")] m in
    (m, [], [])
  else if keyMatches k (kFocusNext keys) then
    (set_focus (paneOfNum ((paneNum (focus m) + 1) mod NumPanes)) m, [], [])
  else if keyMatches k (kFocusPrev keys) then
    (set_focus (paneOfNum ((paneNum (focus m) - 1 + NumPanes) mod NumPanes)) m, [], [])
  else if keyMatches k (kAcceptFile keys) then
    match incomingFileOffer m with
    | Some offer =>
        let m := logf "Accepting file offer for '%s' from %s"
                   [LStr (OfferFilename offer); LStr (devicesMapGet m (offeringClientID m))] m in
        let ack := fileAck m offer true in
        (set_incomingFileOffer None m, [sendWebsocketMessageCmd (wsConn m) ack], [])
    | None => (m, [], [])
    end
  else if keyMatches k (kRejectFile keys) then
    match incomingFileOffer m with
    | Some offer =>
        let m := logf "Rejecting file offer for '%s'" [LStr (OfferFilename offer)] m in
        let ack := fileAck m offer false in
        (set_incomingFileOffer None m, [sendWebsocketMessageCmd (wsConn m) ack], [])
    | None => (m, [], [])
    end
  else if keyMatches k (kInitiateXfer keys) then
    match (if paneEqb (focus m) DevicesPane then SelectedItem m else None) with
    | Some selectedDevice =>
        if String.eqb (ID selectedDevice) "" then
          (logf "Cannot initiate transfer with selected device." [] m, [], [])
        else
          (logf "Initiating file transfer with %s (Not Implemented)"
             [LStr (Hostname selectedDevice)] m, [], [])
    | None => (m, [], [])
    end
  else
    match focus m with
    | HistoryPane => finish m [ComponentCmd HistoryPane] []
    | DevicesPane => finish (set_deviceCursor moved m) [ComponentCmd DevicesPane] []
    | LogPane => finish m [ComponentCmd LogPane] []
    end.

Definition updateConnectionStatus (m : Model) (Status : ConnectionState)
    (Err : option string) (conn : option ConnRef) (Cancel : option CancelRef)
  : Model * list Cmd * list SideEffect :=
  let m := set_connectedState Status m in
  let m := set_lastError Err m in
  if stateEqb Status Connected && (match conn with Some _ => true | None => false end) then
    let m := set_wsConn conn m in
    let m := set_wsCtxCancel Cancel m in
    let m := logf "Connected to server." [] m in
    finish m [listenWebSocketCmd (wsConn m);
              checkLocalClipboardCmd (lastSentClip m);
              sendWebsocketMessageCmd (wsConn m) (mkBaseMessage "request_devices" ANil "")] []
  else
    let effs := match wsCtxCancel m with Some c => [CancelCalled c] | None => [] end in
    let m := set_wsCtxCancel None m in
    let m := set_wsConn None m in
    let m := match Err with
             | Some e => logf "Connection Error: %v" [LStr e] m
             | None => logf "Disconnected." [] m
             end in
    finish m [] effs.

Definition updateServerMsg (m : Model) (serverMsg : BaseMessage)
  : Model * list Cmd * list SideEffect :=
  let m := logf "Server -> Type: %s" [LStr (Type_ serverMsg)] m in
  let ty := Type_ serverMsg in
  if String.eqb ty "clipboard_update" then
    match RemarshalData decodeClipboardUpdate (Data serverMsg) with
    | Some data =>
        let m := set_lastRcvdClip (Content data) m in
        let m := set_histList (InsertItem 0 (Content data) (histList m)) m in
        let m := if Nat.ltb maxHistorySize (length (histList m))
                 then set_histList (RemoveItem (length (histList m) - 1) (histList m)) m
                 else m in
        if syncEnabled m && negb (String.eqb (Content data) (lastSentClip m))
        then finish m [writeToClipboardCmd (Content data)] []
        else finish m [] []
    | None => finish (logf "Error decoding clipboard_update: %v" [] m) [] []
    end
  else if String.eqb ty "clipboard_history" then
    match RemarshalData decodeClipboardHistory (Data serverMsg) with
    | Some data =>
        let m := set_histList (History data) m in
        finish (logf "Received clipboard history (%d items)"
                  [LInt (Z.of_nat (length (History data)))] m) [] []
    | None => finish (logf "Error decoding clipboard_history: %v" [] m) [] []
    end
  else if String.eqb ty "device_list" then
    match RemarshalData decodeDeviceList (Data serverMsg) with
    | Some data =>
        let m := set_devicesMap
                   (fold_left (fun dm d => <[ID d := Hostname d]> dm) (Devices data) ∅) m in
        let m := set_deviceList (Devices data) m in
        finish (logf "Updated device list (%d devices)"
                  [LInt (Z.of_nat (length (Devices data)))] m) [] []
    | None => finish (logf "Error decoding device_list: %v" [] m) [] []
    end
  else if String.eqb ty "file_offer" then
    match RemarshalData decodeFileOffer (Data serverMsg) with
    | Some data =>
        let senderHostname := devicesMapGet m (SenderID serverMsg) in
        let senderHostname :=
          if String.eqb senderHostname "" then SenderID serverMsg else senderHostname in
        let m := logf ">>> Incoming file offer: '%s' (%d bytes) from %s"
                   [LStr (OfferFilename data); LInt (Filesize data); LStr senderHostname] m in
        let m := logf ">>> Press 'a' to accept, 'r' to reject." [] m in
        let m := set_incomingFileOffer (Some data) m in
        finish (set_offeringClientID (SenderID serverMsg) m) [] []
    | None => finish (logf "Error decoding file_offer: %v" [] m) [] []
    end
  else if String.eqb ty "file_ack" then
    match RemarshalData decodeFileAck (Data serverMsg) with
    | Some data =>
        let receiverHostname := devicesMapGet m (SenderID serverMsg) in
        let receiverHostname :=
          if String.eqb receiverHostname "" then SenderID serverMsg else receiverHostname in
        if Allow data then
          finish (logf "'%s' accepted file '%s'. Starting transfer (Not Implemented)"
                    [LStr receiverHostname; LStr (AckFilename data)] m) [] []
        else
          finish (logf "'%s' rejected file '%s'."
                    [LStr receiverHostname; LStr (AckFilename data)] m) [] []
    | None => finish (logf "Error decoding file_ack: %v" [] m) [] []
    end
  else finish (logf "Received unhandled server message type: %s" [LStr ty] m) [] [].

Definition updateClipboardChecked (m : Model) (content : string) (changed : bool)
    (Err : option string) : Model * list Cmd * list SideEffect :=
  if negb (stateEqb (connectedState m) Connected) then (m, [], [])
  else match Err with
       | Some _ => (m, [], [])
       | None =>
           if syncEnabled m && changed && negb (String.eqb content (lastRcvdClip m)) then
             let m := logf "Local clipboard changed, sending update..." [] m in
             let m := set_lastSentClip content m in
             let updateMsg := mkBaseMessage "clipboard_update"
                                (AClipboardUpdateData (mkClipboardUpdateData content)) "" in
             finish m [sendWebsocketMessageCmd (wsConn m) updateMsg;
                       TickCheckClipboard (lastSentClip m)] []
           else finish m [TickCheckClipboard (lastSentClip m)] []
       end.

(** [Model.Update]. *)
Definition Update (m : Model) (msg : Msg) : Model * list Cmd * list SideEffect :=
  match msg with
  | WindowSizeMsg w h =>
      finish (set_ready true (set_height h (set_width w m))) [] []
  | KeyMsg k moved => updateKey m k moved
  | SpinnerTickMsg =>
      finish m (if stateEqb (connectedState m) Connecting then [SpinnerCmd] else []) []
  | ConnectionStatusMsg Status Err conn Cancel => updateConnectionStatus m Status Err conn Cancel
  | ReceivedServerMsg serverMsg => updateServerMsg m serverMsg
  | LocalClipboardCheckedMsg content changed Err => updateClipboardChecked m content changed Err
  | ErrorMsg e => finish (logf "Error: %v" [LStr e] (set_lastError (Some e) m)) [] []
  | LogMsg text => finish (logf text [] m) [] []
  | OtherMsg => finish m [] []
  end.

(** *** What running a command sends back to [Update] *)

(** [connectCmd]: the URL may not parse, the dial may fail. *)
Inductive DialOutcome : Type :=
| BadURL (err : string)
| DialFailed (err : string)
| DialOk (conn : ConnRef) (cancel : CancelRef).

Definition run_connectCmd (o : DialOutcome) : Msg :=
  match o with
  | BadURL e => ErrorMsg e
  | DialFailed e => ConnectionStatusMsg Disconnected (Some e) None None
  | DialOk conn cancel => ConnectionStatusMsg Connected None (Some conn) (Some cancel)
  end.

(** One turn of the read goroutine of [listenWebSocketCmd]: what
    [ReadMessage] returned, and what is sent to the program. The goroutine
    ends after a [ReadFailed]. *)
Inductive ReadOutcome : Type :=
| ReadFailed (unexpected : bool) (err : string)
| ReadFrame (f : Frame).

Definition listenerSends (r : ReadOutcome) : option Msg :=
  match r with
  | ReadFailed true e => Some (ConnectionStatusMsg Disconnected (Some e) None None)
  | ReadFailed false _ => Some (ConnectionStatusMsg Disconnected None None None)
  | ReadFrame (TextMessage None) => Some (ErrorMsg "unmarshal error")
  | ReadFrame (TextMessage (Some j)) =>
      match unmarshalBaseMessage j with
      | Some msg => Some (ReceivedServerMsg msg)
      | None => Some (ErrorMsg "unmarshal error")
      end
  | ReadFrame (BinaryMessage _) => None
  end.

(** [checkLocalClipboardCmd]: [read] is the result of [clipboard.ReadAll]. *)
Definition run_checkLocalClipboardCmd (lastContent : string) (read : string + string) : Msg :=
  match read with
  | inr err => LocalClipboardCheckedMsg "" false (Some err)
  | inl currentClip =>
      if negb (String.eqb currentClip lastContent)
      then LocalClipboardCheckedMsg currentClip true None
      else LocalClipboardCheckedMsg "" false None
  end.

(** [writeToClipboardCmd]: [werr] is the error of [clipboard.WriteAll]. *)
Definition run_writeToClipboardCmd (werr : option string) : Msg :=
  match werr with
  | Some e => ErrorMsg e
  | None => LogMsg "Local clipboard updated."
  end.

(** [sendWebsocketMessageCmd]: nothing is sent back on success. *)
Definition run_sendWebsocketMessageCmd (conn : option ConnRef) (werr : option string)
  : option Msg :=
  match conn with
  | None => Some (ErrorMsg "cannot send: not connected")
  | Some _ => match werr with
              | Some e => Some (ErrorMsg e)
              | None => None
              end
  end.

(** The messages the program's own commands and goroutines can send. *)
Inductive produced : Msg -> Prop :=
| produced_connect o : produced (run_connectCmd o)
| produced_listener r msg : listenerSends r = Some msg -> produced msg
| produced_check last read : produced (run_checkLocalClipboardCmd last read)
| produced_write werr : produced (run_writeToClipboardCmd werr)
| produced_send conn werr msg : run_sendWebsocketMessageCmd conn werr = Some msg -> produced msg.

(** *** Notions used to state the properties of the client *)

Definition modelOf (r : Model * list Cmd * list SideEffect) : Model := fst (fst r).
Definition cmdsOf (r : Model * list Cmd * list SideEffect) : list Cmd := snd (fst r).
Definition effectsOf (r : Model * list Cmd * list SideEffect) : list SideEffect := snd r.

(** The model after a sequence of messages. *)
Definition runUpdates (m : Model) (msgs : list Msg) : Model :=
  fold_left (fun m msg => modelOf (Update m msg)) msgs m.

Definition isConnect (c : Cmd) : bool :=
  match c with
  | connectCmd _ _ _ => true
  | _ => false
  end.

Definition isClipboardWrite (c : Cmd) : bool :=
  match c with
  | writeToClipboardCmd _ => true
  | _ => false
  end.

(** Messages that come from the terminal and the components. *)
Inductive fromTerminal : Msg -> Prop :=
| terminal_size w h : fromTerminal (WindowSizeMsg w h)
| terminal_key k moved : fromTerminal (KeyMsg k moved)
| terminal_tick : fromTerminal SpinnerTickMsg
| terminal_other : fromTerminal OtherMsg.

(** Every message that can reach [Update] other than the answer of a
    [connectCmd]. *)
Inductive arrivesLater : Msg -> Prop :=
| later_terminal msg : fromTerminal msg -> arrivesLater msg
| later_listener r msg : listenerSends r = Some msg -> arrivesLater msg
| later_check last read : arrivesLater (run_checkLocalClipboardCmd last read)
| later_write werr : arrivesLater (run_writeToClipboardCmd werr)
| later_send conn werr msg :
    run_sendWebsocketMessageCmd conn werr = Some msg -> arrivesLater msg.

(** The status carried by a message, if it is a connection status. *)
Definition statusOf (msg : Msg) : option ConnectionState :=
  match msg with
  | ConnectionStatusMsg s _ _ _ => Some s
  | _ => None
  end.

(** The client of the examples, and a clipboard_update as the listener
    hands it over. *)
Definition laptop : Model := NewModel "ws://hub:8080/ws" "secret" "laptop".

Definition inboundHello : BaseMessage :=
  mkBaseMessage "clipboard_update" (AJSON (JObject [("content", JString "hello")])) "".

Definition isSend (c : Cmd) : bool :=
  match c with
  | sendWebsocketMessageCmd _ _ => true
  | _ => false
  end.

Definition isTick (c : Cmd) : bool :=
  match c with
  | TickCheckClipboard _ => true
  | _ => false
  end.

(** Every message that can reach [Update]. *)
Inductive arrives : Msg -> Prop :=
| arrives_connect o : arrives (run_connectCmd o)
| arrives_later msg : arrivesLater msg -> arrives msg.

(** The connection fields agree with the connection state. *)
Definition connInv (m : Model) : Prop :=
  (connectedState m = Connected ∧ is_Some (wsConn m) ∧ is_Some (wsCtxCancel m))
  ∨ (connectedState m = Disconnected ∧ wsConn m = None ∧ wsCtxCancel m = None).

(** The clipboard_update a client sends for a local change. *)
Definition localUpdate (content : string) : BaseMessage :=
  mkBaseMessage "clipboard_update" (AClipboardUpdateData (mkClipboardUpdateData content)) "".

End Client.

(** ** Server and client together *)

Module System.




End System.

(** ** Properties of the server *)

Module ServerSpec.
Import Server.

(** *** The clipboard store *)

Lemma setIfChanged_unchanged (st : State) :
  setIfChanged st (currentClip st) = (st, false).
Proof.
  unfold setIfChanged. by rewrite String.eqb_refl.
Qed.

Lemma setIfChanged_current (st : State) (x : string) :
  currentClip (fst (setIfChanged st x)) = x.
Proof.
  unfold setIfChanged.
  destruct (String.eqb (currentClip st) x) eqn:E; simpl; [|done].
  by apply String.eqb_eq in E.
Qed.

Lemma setIfChanged_history (st : State) (x : string) :
  currentClip st ≠ x →
  clipboardHistory (fst (setIfChanged st x)) = take maxHistorySize (x :: clipboardHistory st).
Proof.
  intros Hne. unfold setIfChanged.
  apply String.eqb_neq in Hne. rewrite Hne. cbn [negb fst clipboardHistory].
  destruct (Nat.ltb maxHistorySize (length (x :: clipboardHistory st))) eqn:E; [done|].
  apply Nat.ltb_ge in E. by rewrite take_ge.
Qed.

Lemma setIfChanged_storeInv (st : State) (x : string) :
  storeInv st → storeInv (fst (setIfChanged st x)).
Proof.
  intros Hinv.
  destruct (decide (currentClip st = x)) as [<-|Hne].
  - by rewrite setIfChanged_unchanged.
  - split.
    + intros _. rewrite setIfChanged_current, setIfChanged_history by done.
      reflexivity.
    + rewrite setIfChanged_history by done. rewrite length_take. lia.
Qed.

Lemma applyUpdates_storeInv (contents : list string) (st : State) :
  storeInv st → storeInv (applyUpdates st contents).
Proof.
  revert st. induction contents as [|c contents IH]; intros st Hinv; [done|].
  apply IH. by apply setIfChanged_storeInv.
Qed.

Lemma initState_storeInv (key : string) : storeInv (initState key).
Proof. split; [done|]. simpl. unfold maxHistorySize. lia. Qed.

(** The read loop touches the store only through [setIfChanged]. *)
Lemma handleFrame_storeInv (st : State) (client : ClientInfo) (f : Frame) :
  storeInv st → storeInv (fst (handleFrame st client f)).
Proof.
  intros Hinv. destruct f as [[j|]|n]; simpl; try done.
  destruct (unmarshalBaseMessage j) as [msg|]; [|done].
  unfold handleText. cbn [Type_ Data].
  repeat (match goal with
          | |- context [String.eqb ?a ?b] => destruct (String.eqb a b)
          | |- context [RemarshalData ?d ?x] => destruct (RemarshalData d x)
          end; try done).
  unfold clipboardUpdate.
  pose proof (setIfChanged_storeInv st (Content c) Hinv) as H.
  by destruct (setIfChanged st (Content c)).
Qed.

(** C4. Starting from the empty store, after any sequence of clipboard
    updates: when [currentClip] is not empty it is the head of the
    history, the history holds at most 20 entries, and an update that
    changes the value puts it in front and keeps the 20 most recent
    entries, so that the oldest one is dropped from a full history. *)
Theorem history_bounded_and_headed (key : string) (contents : list string) (x : string) :
  let st := applyUpdates (initState key) contents in
  (currentClip st ≠ "" → head (clipboardHistory st) = Some (currentClip st))
  ∧ length (clipboardHistory st) ≤ 20
  ∧ (currentClip st ≠ x →
     clipboardHistory (fst (setIfChanged st x)) = take 20 (x :: clipboardHistory st)
     ∧ (length (clipboardHistory st) = 20 →
        clipboardHistory (fst (setIfChanged st x)) = x :: removelast (clipboardHistory st))).
Proof.
  intros st.
  destruct (applyUpdates_storeInv contents (initState key) (initState_storeInv key))
    as [Hhead Hlen].
  fold st in Hhead, Hlen. unfold maxHistorySize in Hlen.
  split; [exact Hhead|]. split; [exact Hlen|].
  intros Hne. pose proof (setIfChanged_history st x Hne) as Hh.
  unfold maxHistorySize in Hh. split; [exact Hh|].
  intros Hfull. rewrite Hh. change (take 20 (x :: clipboardHistory st))
    with (x :: take 19 (clipboardHistory st)).
  f_equal. clear Hh Hhead Hlen. revert Hfull.
  generalize (clipboardHistory st). intros l Hl.
  destruct (exists_last (l:=l)) as (l' & a & ->); [by destruct l|].
  rewrite removelast_last. rewrite length_app in Hl. simpl in Hl.
  rewrite take_app_le by lia. rewrite take_ge by lia. done.
Qed.

Lemma history_bounded_and_headed_witness :
  let st := applyUpdates (initState "secret") twentyValues in
  head (clipboardHistory st) = Some "20"
  ∧ clipboardHistory (fst (setIfChanged st "21")) = "21" :: removelast (clipboardHistory st).
Proof.
  destruct (history_bounded_and_headed "secret" twentyValues "21") as (Hhead & _ & Hins).
  split.
  - apply Hhead. vm_compute. discriminate.
  - apply Hins; vm_compute; [discriminate | reflexivity].
Defined.

(** C9. Setting the same value twice in a row: the second call reports no
    change, leaves current value and history as the first call left them,
    and the read loop sends nothing to the broadcast channel for it. *)
Theorem setIfChanged_twice (st : State) (client : ClientInfo) (x : string) :
  let st1 := fst (setIfChanged st x) in
  setIfChanged st1 x = (st1, false)
  ∧ currentClip (fst (setIfChanged st1 x)) = currentClip st1
  ∧ clipboardHistory (fst (setIfChanged st1 x)) = clipboardHistory st1
  ∧ clipboardUpdate st1 client (mkClipboardUpdateData x) = (st1, []).
Proof.
  intros st1.
  assert (setIfChanged st1 x = (st1, false)) as H.
  { pose proof (setIfChanged_unchanged st1) as H.
    unfold st1 in H at 2. rewrite setIfChanged_current in H. exact H. }
  unfold clipboardUpdate. cbn [Content]. rewrite H. done.
Qed.

(** *** The broadcast loop *)

Lemma deliver_filter (message : BaseMessage) (active : list ClientInfo) :
  deliver message active
  = map (fun c => WriteTo c message) (List.filter (fun c => negb (skipped message c)) active).
Proof.
  induction active as [|c active IH]; [done|].
  cbn [deliver List.filter]. unfold skipped at 1.
  destruct (String.eqb (Type_ message) "clipboard_update" && String.eqb (ID c) (SenderID message));
    cbn [orb negb]; [exact IH|].
  destruct (targetted message c); cbn [negb map]; [exact IH|].
  by rewrite IH.
Qed.

Lemma deliver_In (message m' : BaseMessage) (active : list ClientInfo) (c : ClientInfo) :
  In (WriteTo c m') (deliver message active)
  ↔ m' = message ∧ In c active ∧ skipped message c = false.
Proof.
  rewrite deliver_filter, in_map_iff. split.
  - intros (c' & Heq & Hin). inversion Heq; subst.
    apply filter_In in Hin as [Hin Hs]. apply negb_true_iff in Hs. done.
  - intros (-> & Hin & Hs). exists c. split; [done|].
    apply filter_In. by rewrite Hs.
Qed.

(** A message whose [Data] is not one of the structs matches no case of
    the type switch: only the echo rule can skip a device for it. *)
Lemma targetted_untyped (message : BaseMessage) (c : ClientInfo) :
  untyped (Data message) = true → targetted message c = false.
Proof. unfold targetted. by destruct (Data message). Qed.

Lemma deliver_untyped (message : BaseMessage) (active : list ClientInfo) :
  untyped (Data message) = true →
  String.eqb (Type_ message) "clipboard_update" = false →
  deliver message active = map (fun c => WriteTo c message) active.
Proof.
  intros Hu Ht. induction active as [|c active IH]; [done|].
  cbn [deliver map]. rewrite Ht, (targetted_untyped _ _ Hu). cbn [andb].
  by rewrite IH.
Qed.

(** What the read loop relays kept the generic [Data] of the frame. *)
Lemma unmarshalBaseMessage_untyped (j : JSON) (msg : BaseMessage) :
  unmarshalBaseMessage j = Some msg → untyped (Data msg) = true.
Proof.
  destruct j as [| | | | |fs]; simpl; try done.
  - by intros [= <-].
  - destruct (fieldString "type" fs), (fieldString "senderId" fs); try done.
    intros [= <-]. cbn [Data].
    destruct (lookupField "data" fs) as [d|]; [|done]. by destruct d.
Qed.

Lemma handleText_relay (st st' : State) (client : ClientInfo) (msg0 relayed : BaseMessage)
    (out : list Effect) :
  handleText st client msg0 = (st', out) → In (SendBroadcast relayed) out →
  String.eqb (Type_ relayed) "clipboard_update" = false →
  relayed = mkBaseMessage (Type_ msg0) (Data msg0) (ID client).
Proof.
  unfold handleText. cbn [Type_ Data].
  destruct (String.eqb (Type_ msg0) "clipboard_update") eqn:E1.
  { destruct (RemarshalData decodeClipboardUpdate (Data msg0)) as [d|].
    - unfold clipboardUpdate. destruct (setIfChanged st (Content d)) as [s1 [|]];
        intros [= <- <-] Hin Ht.
      + by destruct Hin as [[= <-]|[]].
      + by destruct Hin.
    - by intros [= <- <-] []. }
  destruct (String.eqb (Type_ msg0) "request_devices").
  { intros [= <- <-] Hin. by destruct Hin as [|[]]. }
  destruct (String.eqb (Type_ msg0) "file_offer").
  { destruct (RemarshalData decodeFileOffer (Data msg0)); intros [= <- <-] Hin _.
    - by destruct Hin as [[= <-]|[]].
    - by destruct Hin. }
  destruct (String.eqb (Type_ msg0) "file_ack").
  { destruct (RemarshalData decodeFileAck (Data msg0)); intros [= <- <-] Hin _.
    - by destruct Hin as [[= <-]|[]].
    - by destruct Hin. }
  by intros [= <- <-] [].
Qed.

(** Every file_offer and file_ack that the read loop relays goes to the
    whole registry, the sender included. *)
Lemma relayed_reaches_everyone (st st' hub : State) (client : ClientInfo) (j : JSON)
    (relayed : BaseMessage) (out : list Effect) :
  handleFrame st client (TextMessage (Some j)) = (st', out) →
  In (SendBroadcast relayed) out →
  String.eqb (Type_ relayed) "clipboard_update" = false →
  snd (runHub hub (Broadcast relayed))
  = map (fun c => WriteTo c relayed) (activeClients (clients hub)).
Proof.
  cbn [handleFrame]. destruct (unmarshalBaseMessage j) as [msg0|] eqn:Hj.
  - intros Hh Hin Ht. pose proof (handleText_relay _ _ _ _ _ _ Hh Hin Ht) as ->.
    cbn [runHub snd]. apply deliver_untyped; [|exact Ht].
    cbn [Data]. by eapply unmarshalBaseMessage_untyped.
  - by intros [= <- <-] [].
Qed.

(** Had the hub received the decoded struct, the acknowledgement would go
    to the offering device alone. *)
Lemma deliver_typed_file_ack (message : BaseMessage) (data : FileAckData)
    (active : list ClientInfo) (c : ClientInfo) :
  Data message = AFileAckData data → Type_ message = "file_ack" →
  In (WriteTo c message) (deliver message active) ↔ In c active ∧ ID c = SourceID data.
Proof.
  intros Hd Ht. rewrite deliver_In. unfold skipped, targetted. rewrite Hd, Ht.
  cbn. destruct (String.eqb_spec (ID c) (SourceID data)); cbn; intuition congruence.
Qed.

Lemma deliver_typed_file_offer (message : BaseMessage) (data : FileOfferData)
    (active : list ClientInfo) (c : ClientInfo) :
  Data message = AFileOfferData data → Type_ message = "file_offer" →
  In (WriteTo c message) (deliver message active)
  ↔ In c active ∧ ID c ≠ SenderID message
    ∧ (TargetID data = "" ∨ ID c = TargetID data).
Proof.
  intros Hd Ht. rewrite deliver_In. unfold skipped, targetted. rewrite Hd, Ht.
  cbn. destruct (String.eqb_spec (ID c) (SenderID message)),
         (String.eqb_spec (TargetID data) ""),
         (String.eqb_spec (ID c) (TargetID data)); cbn; intuition congruence.
Qed.

(** C5. Whatever the registry holds, a clipboard_update with sender id S
    is written to no device whose id is S. *)
Theorem clipboard_update_not_echoed (st : State) (message m' : BaseMessage) (c : ClientInfo) :
  Type_ message = "clipboard_update" →
  In (WriteTo c m') (snd (runHub st (Broadcast message))) →
  ID c ≠ SenderID message.
Proof.
  intros Ht Hin. cbn [runHub snd] in Hin.
  apply deliver_In in Hin as (_ & _ & Hs).
  unfold skipped in Hs. rewrite Ht in Hs. cbn in Hs.
  apply orb_false_iff in Hs as [Hs _].
  by apply String.eqb_neq in Hs.
Qed.

Lemma clipboard_update_not_echoed_witness :
  let message := mkBaseMessage "clipboard_update"
                   (AClipboardUpdateData (mkClipboardUpdateData "hello")) "A" in
  In (WriteTo devB message) (snd (runHub threeDevices (Broadcast message)))
  ∧ ID devB ≠ "A".
Proof.
  intros message.
  assert (In (WriteTo devB message) (snd (runHub threeDevices (Broadcast message)))) as Hin.
  { vm_compute. right. left. reflexivity. }
  split; [exact Hin|].
  exact (clipboard_update_not_echoed threeDevices message message devB eq_refl Hin).
Defined.

(** C1 (the code departs from it). B acknowledges A's offer with
    [file_ack{sourceId: "A"}] in a registry holding A, B and C. The read
    loop accepts the frame and relays the message with the generic [Data]
    it was parsed into, so the hub's case for [FileAckData] is not taken
    and the acknowledgement is written to A, to B itself and to C. *)
Theorem file_ack_reaches_every_device :
  ∃ relayed,
    handleFrame threeDevices devB ackFrame = (threeDevices, [SendBroadcast relayed])
    ∧ RemarshalData decodeFileAck (Data relayed) = Some (mkFileAckData "x.txt" true "A")
    ∧ In (WriteTo devA relayed) (snd (runHub threeDevices (Broadcast relayed)))
    ∧ In (WriteTo devB relayed) (snd (runHub threeDevices (Broadcast relayed)))
    ∧ In (WriteTo devC relayed) (snd (runHub threeDevices (Broadcast relayed))).
Proof.
  eexists. split; [vm_compute; reflexivity|].
  split; [vm_compute; reflexivity|].
  vm_compute. tauto.
Qed.

(** C2 (the code departs from it). A offers a file to B with
    [file_offer{targetId: "B"}] in a registry holding A, B and C. The
    relayed message carries the generic [Data], the hub's case for
    [FileOfferData] is not taken, and the offer is written to B, to C and
    back to A. *)
Theorem file_offer_reaches_every_device :
  ∃ relayed,
    handleFrame threeDevices devA offerFrame = (threeDevices, [SendBroadcast relayed])
    ∧ RemarshalData decodeFileOffer (Data relayed) = Some (mkFileOfferData "x.txt" 100 "B")
    ∧ SenderID relayed = "A"
    ∧ In (WriteTo devA relayed) (snd (runHub threeDevices (Broadcast relayed)))
    ∧ In (WriteTo devB relayed) (snd (runHub threeDevices (Broadcast relayed)))
    ∧ In (WriteTo devC relayed) (snd (runHub threeDevices (Broadcast relayed))).
Proof.
  eexists. split; [vm_compute; reflexivity|].
  split; [vm_compute; reflexivity|].
  split; [reflexivity|].
  vm_compute. tauto.
Qed.

(** *** Removal from the registry *)

Lemma connEqb_eq (a b : option ConnRef) : connEqb a b = true ↔ a = b.
Proof.
  destruct a as [x|], b as [y|]; simpl; try (split; [discriminate|congruence]); [|done].
  rewrite Nat.eqb_eq. split; congruence.
Qed.

Lemma closesOf_app (conn : option ConnRef) (a b : list Effect) :
  closesOf conn (a ++ b) = closesOf conn a + closesOf conn b.
Proof. unfold closesOf. by rewrite List.filter_app, length_app. Qed.

Lemma closesOf_deliver (conn : option ConnRef) (message : BaseMessage)
    (active : list ClientInfo) :
  closesOf conn (deliver message active) = 0.
Proof.
  rewrite deliver_filter. unfold closesOf.
  induction (List.filter (λ c, negb (skipped message c)) active) as [|c l IH]; [done|].
  exact IH.
Qed.

(** Removing an id that is not registered changes nothing and closes
    nothing; only the device list is offered for broadcast again. *)
Lemma runHub_unregister_absent (st : State) (c : ClientInfo) :
  clients st !! ID c = None →
  runHub st (Unregister c) = (st, broadcastDeviceListUpdate (clients st)).
Proof. intros H. cbn [runHub]. by rewrite H. Qed.

Lemma runHub_unregister_present (st : State) (c : ClientInfo) :
  clients st !! ID c = Some c →
  runHub st (Unregister c)
  = (withClients st (delete (ID c) (clients st)),
     CloseConn (Conn c) :: broadcastDeviceListUpdate (delete (ID c) (clients st))).
Proof.
  intros H. cbn [runHub]. rewrite H.
  by rewrite (proj2 (connEqb_eq (Conn c) (Conn c)) eq_refl).
Qed.

(** Once [c] is gone, events that admit no device under its id or with
    its connection keep it gone and never close its connection. *)
Lemma runHub_gone (st : State) (c : ClientInfo) (ev : HubEvent) :
  clients st !! ID c = None → connOwned c st → foreign c ev →
  clients (fst (runHub st ev)) !! ID c = None
  ∧ connOwned c (fst (runHub st ev))
  ∧ closesOf (Conn c) (snd (runHub st ev)) = 0.
Proof.
  intros Habs Hown Hf. destruct ev as [c'|c'|message].
  - destruct Hf as [Hid Hconn]. cbn [runHub fst snd withClients clients].
    split; [by rewrite lookup_insert_ne|]. split; [|done].
    intros k e. cbn [withClients clients]. rewrite lookup_insert.
    case_decide as Hk; [intros [= <-]; done|]. apply Hown.
  - cbn [runHub]. destruct (clients st !! ID c') as [e|] eqn:He; [|done].
    destruct (connEqb (Conn e) (Conn c')) eqn:Hc; [|done].
    cbn [fst snd withClients clients]. apply connEqb_eq in Hc.
    split; [|split].
    + rewrite lookup_delete. case_decide; done.
    + intros k x. cbn [withClients clients]. rewrite lookup_delete.
      case_decide; [done|]. apply Hown.
    + unfold closesOf. cbn [List.filter isClose broadcastDeviceListUpdate].
      destruct (connEqb (Conn c') (Conn c)) eqn:Hcc; [|done].
      apply connEqb_eq in Hcc. exfalso.
      assert (ID c' = ID c) as Hid by (eapply Hown; [exact He|congruence]).
      rewrite Hid in He. congruence.
  - cbn [runHub fst snd]. split; [done|]. split; [done|]. apply closesOf_deliver.
Qed.

Lemma runHubTrace_gone (evs : list HubEvent) (st : State) (c : ClientInfo) :
  clients st !! ID c = None → connOwned c st → Forall (foreign c) evs →
  clients (fst (runHubTrace st evs)) !! ID c = None
  ∧ closesOf (Conn c) (snd (runHubTrace st evs)) = 0.
Proof.
  revert st. induction evs as [|ev evs IH]; intros st Habs Hown Hf; [done|].
  apply Forall_cons in Hf as [Hev Hf].
  destruct (runHub_gone st c ev Habs Hown Hev) as (Habs1 & Hown1 & Hc1).
  cbn [runHubTrace]. destruct (runHub st ev) as [st1 out1]. cbn [fst snd] in *.
  destruct (IH st1 Habs1 Hown1 Hf) as (Habs2 & Hc2).
  destruct (runHubTrace st1 evs) as [st2 out2]. cbn [fst snd] in *.
  split; [done|]. rewrite closesOf_app. lia.
Qed.

(** C7. A registered device is removed twice, with any other hub events
    in between (among them further removals of the same device, as when a
    read failure and a write failure both report it): the first removal
    closes its connection once, nothing in between closes it again, and
    the second removal finds the id absent, leaves the registry as it is
    and closes nothing. *)
Theorem unregister_twice_closes_once (st : State) (c : ClientInfo) (mid : list HubEvent) :
  clients st !! ID c = Some c → connOwned c st → Forall (foreign c) mid →
  let r1 := runHub st (Unregister c) in
  let r2 := runHubTrace (fst r1) mid in
  let r3 := runHub (fst r2) (Unregister c) in
  closesOf (Conn c) (snd r1) = 1
  ∧ closesOf (Conn c) (snd r2) = 0
  ∧ r3 = (fst r2, broadcastDeviceListUpdate (clients (fst r2)))
  ∧ closesOf (Conn c) (snd r1 ++ snd r2 ++ snd r3) = 1.
Proof.
  intros Hreg Hown Hmid r1 r2 r3.
  assert (closesOf (Conn c) (snd r1) = 1) as H1.
  { unfold r1. rewrite runHub_unregister_present by done.
    unfold closesOf. cbn [snd List.filter isClose broadcastDeviceListUpdate].
    by rewrite (proj2 (connEqb_eq (Conn c) (Conn c)) eq_refl). }
  assert (clients (fst r1) !! ID c = None ∧ connOwned c (fst r1)) as [Habs Hown1].
  { unfold r1. rewrite runHub_unregister_present by done.
    cbn [fst withClients clients]. split; [by rewrite lookup_delete_eq|].
    intros k e. cbn [withClients clients]. rewrite lookup_delete.
    case_decide; [done|]. apply Hown. }
  destruct (runHubTrace_gone mid (fst r1) c Habs Hown1 Hmid) as [Habs2 H2].
  fold r2 in Habs2, H2.
  assert (r3 = (fst r2, broadcastDeviceListUpdate (clients (fst r2)))) as H3.
  { unfold r3. by apply runHub_unregister_absent. }
  repeat split; try done.
  rewrite !closesOf_app, H1, H2, H3. done.
Qed.

Lemma unregister_twice_closes_once_witness :
  closesOf (Some 2)
    (snd (runHubTrace threeDevices
            [Unregister devB; Broadcast (deviceListMessage ∅); Unregister devB; Unregister devB]))
  = 1.
Proof.
  assert (clients threeDevices !! ID devB = Some devB) as Hreg by (vm_compute; reflexivity).
  assert (connOwned devB threeDevices) as Hown.
  { intros k e. unfold threeDevices. cbn [clients]. rewrite !lookup_insert.
    repeat case_decide; subst; try done; intros [= <-]; done. }
  assert (Forall (foreign devB) [Broadcast (deviceListMessage ∅); Unregister devB]) as Hmid.
  { repeat constructor. }
  destruct (unregister_twice_closes_once threeDevices devB _ Hreg Hown Hmid)
    as (_ & _ & _ & H).
  vm_compute in H. vm_compute. exact H.
Defined.

(** *** Admission *)

Lemma queryGet_absent (q : gmap string (list string)) (key : string) :
  q !! key = None → queryGet q key = "".
Proof. unfold queryGet. by intros ->. Qed.




Lemma deviceList_In (cs : gmap string ClientInfo) (d : ClientInfo) :
  In d (deviceList cs)
  ↔ ∃ k e, cs !! k = Some e ∧ d = mkClientInfo (ID e) None (Hostname e).
Proof.
  unfold deviceList, activeClients. rewrite in_map_iff. split.
  - intros (e & <- & Hin). apply list_elem_of_In, list_elem_of_fmap in Hin
      as ([k e'] & -> & Hin). apply elem_of_map_to_list in Hin. by exists k, e'.
  - intros (k & e & Hk & ->). exists e. split; [done|].
    apply list_elem_of_In, list_elem_of_fmap. exists (k, e).
    split; [done|]. by apply elem_of_map_to_list.
Qed.





End ServerSpec.

(** ** Properties of the client *)

Module ClientSpec.
Import Client.

Ltac branches :=
  repeat match goal with
         | |- context [if ?b then _ else _] => destruct b
         | |- context [match ?x with _ => _ end] => destruct x
         end.

Lemma logf_connectedState (fmt : string) (a : list LogArg) (m : Model) :
  connectedState (logf fmt a m) = connectedState m.
Proof. reflexivity. Qed.

(** Only a connection status message changes the connection state. *)
Lemma Update_connectedState (m : Model) (msg : Msg) :
  connectedState (modelOf (Update m msg))
  = match statusOf msg with
    | Some s => s
    | None => connectedState m
    end.
Proof.
  destruct msg; cbn [Update statusOf];
    unfold updateKey, updateConnectionStatus, updateServerMsg, updateClipboardChecked,
      finish, modelOf;
    branches; reflexivity.
Qed.

(** [Update] never returns a connect command: the attempt started by
    [Init] is the only one. *)
Lemma Update_never_connects (m : Model) (msg : Msg) :
  existsb isConnect (cmdsOf (Update m msg)) = false.
Proof.
  destruct msg; cbn [Update];
    unfold updateKey, updateConnectionStatus, updateServerMsg, updateClipboardChecked,
      finish, cmdsOf;
    branches; reflexivity.
Qed.

Lemma arrivesLater_status (msg : Msg) (s : ConnectionState) :
  arrivesLater msg → statusOf msg = Some s → s = Disconnected.
Proof.
  intros H. destruct H as [msg H|r msg H|last read|werr|conn werr msg H].
  - by destruct H.
  - destruct r as [[|] e|[[j|]|n]]; simpl in H; try (by inversion H; subst; intros [= <-]).
    + destruct (unmarshalBaseMessage j); by inversion H.
  - unfold run_checkLocalClipboardCmd. by branches.
  - by destruct werr.
  - destruct conn, werr; simpl in H; by inversion H.
Qed.

Lemma runUpdates_stays_Disconnected (later : list Msg) (m : Model) :
  connectedState m = Disconnected → Forall arrivesLater later →
  connectedState (runUpdates m later) = Disconnected.
Proof.
  revert m. induction later as [|msg later IH]; intros m Hm Hl; [done|].
  apply Forall_cons in Hl as [Hmsg Hl]. cbn [runUpdates fold_left].
  apply IH; [|done]. rewrite Update_connectedState.
  destruct (statusOf msg) as [s|] eqn:Hs; [|done].
  by eapply arrivesLater_status.
Qed.

(** C3 as it holds. A connection fault reaches [Update] as a status
    message carrying [Disconnected]. The agent then is in [Disconnected],
    has called and forgotten its cancel function if it held one, has
    dropped its connection, and returns no command at all: nothing is
    quit and no reconnect is scheduled. No later message brings it out of
    [Disconnected], and [Update] never issues a connect command. *)
Theorem fault_leaves_agent_Disconnected (m : Model) (err : option string)
    (conn : option ConnRef) (cancel : option CancelRef) (later : list Msg) :
  Forall arrivesLater later →
  let r := Update m (ConnectionStatusMsg Disconnected err conn cancel) in
  connectedState (modelOf r) = Disconnected
  ∧ wsConn (modelOf r) = None
  ∧ wsCtxCancel (modelOf r) = None
  ∧ effectsOf r = match wsCtxCancel m with Some c => [CancelCalled c] | None => [] end
  ∧ cmdsOf r = []
  ∧ connectedState (runUpdates (modelOf r) later) = Disconnected
  ∧ ∀ m' msg, existsb isConnect (cmdsOf (Update m' msg)) = false.
Proof.
  intros Hl r.
  assert (connectedState (modelOf r) = Disconnected) as Hs.
  { unfold r. by rewrite Update_connectedState. }
  split; [exact Hs|].
  split; [unfold r; cbn; by destruct err|].
  split; [unfold r; cbn; by destruct err|].
  split; [unfold r; cbn; by destruct err, (wsCtxCancel m)|].
  split; [unfold r; cbn; by destruct err|].
  split; [by apply runUpdates_stays_Disconnected|].
  apply Update_never_connects.
Qed.

Lemma fault_leaves_agent_Disconnected_witness :
  connectedState
    (runUpdates
       (modelOf (Update laptop (run_connectCmd (DialFailed "dial failed: connection refused"))))
       [KeyMsg "tab" 0; run_checkLocalClipboardCmd "" (inl "copied"); SpinnerTickMsg])
  = Disconnected.
Proof.
  refine (proj1 (proj2 (proj2 (proj2 (proj2 (proj2
    (fault_leaves_agent_Disconnected laptop (Some "dial failed: connection refused")
       None None
       [KeyMsg "tab" 0; run_checkLocalClipboardCmd "" (inl "copied"); SpinnerTickMsg] _))))))).
  apply Forall_cons; split; [apply later_terminal, terminal_key|].
  apply Forall_cons; split; [apply later_check|].
  apply Forall_cons; split; [apply later_terminal, terminal_tick|].
  apply Forall_nil_2.
Defined.

(** C3 as worded fails: after a failed dial the agent is in
    [Disconnected] with no command pending, so nothing brings it back to
    [Connecting]; the spinner ticks, key presses and clipboard polls that
    follow leave it where it is. *)
Lemma dial_failure_schedules_no_reconnect :
  let r := Update laptop (run_connectCmd (DialFailed "dial failed: connection refused")) in
  connectedState (modelOf r) = Disconnected
  ∧ cmdsOf r = []
  ∧ existsb isConnect (cmdsOf r) = false
  ∧ connectedState
      (runUpdates (modelOf r)
         [SpinnerTickMsg; KeyMsg "tab" 0; run_checkLocalClipboardCmd "" (inl "copied");
          OtherMsg])
    = Disconnected.
Proof. vm_compute. tauto. Qed.

(** *** Inbound clipboard updates *)

Lemma RemoveItem_cons_last {A : Type} (c : A) (l : list A) :
  0 < length l →
  RemoveItem (length (c :: l) - 1) (c :: l) = c :: take (length l - 1) l.
Proof.
  intros Hl. unfold RemoveItem. cbn [length]. rewrite Nat.sub_succ, Nat.sub_0_r.
  destruct l as [|a l]; [simpl in Hl; lia|].
  cbn [length take drop]. rewrite Nat.sub_succ, Nat.sub_0_r.
  rewrite drop_all, app_nil_r. reflexivity.
Qed.

(** The clipboard_update case of [Update], with its steps named. *)
Lemma updateServerMsg_clipboard_update (m : Model) (serverMsg : BaseMessage)
    (data : ClipboardUpdateData) :
  Type_ serverMsg = "clipboard_update" →
  RemarshalData decodeClipboardUpdate (Data serverMsg) = Some data →
  let hist1 := Content data :: histList m in
  let hist2 := if Nat.ltb maxHistorySize (length hist1)
               then RemoveItem (length hist1 - 1) hist1 else hist1 in
  updateServerMsg m serverMsg
  = finish (set_histList hist2 (set_lastRcvdClip (Content data)
              (logf "Server -> Type: %s" [LStr "clipboard_update"] m)))
      (if syncEnabled m && negb (String.eqb (Content data) (lastSentClip m))
       then [writeToClipboardCmd (Content data)] else []) [].
Proof.
  intros Ht Hd hist1 hist2. unfold updateServerMsg. cbv zeta.
  rewrite Ht, Hd. rewrite String.eqb_refl. cbv iota.
  unfold InsertItem. rewrite take_0, drop_0. cbn [app].
  repeat match goal with
         | |- context [histList (set_lastRcvdClip ?c ?m0)] =>
             change (histList (set_lastRcvdClip c m0)) with (histList m)
         | |- context [histList (set_histList ?h ?m0)] =>
             change (histList (set_histList h m0)) with h
         end.
  fold hist1. unfold hist2.
  destruct (Nat.ltb maxHistorySize (length hist1));
    repeat match goal with
           | |- context [syncEnabled (set_histList ?h ?m0)] =>
               change (syncEnabled (set_histList h m0)) with (syncEnabled m)
           | |- context [lastSentClip (set_histList ?h ?m0)] =>
               change (lastSentClip (set_histList h m0)) with (lastSentClip m)
           end;
    destruct (syncEnabled m && negb (String.eqb (Content data) (lastSentClip m)));
    reflexivity.
Qed.

(** C6 as it holds. An inbound clipboard_update whose payload decodes is
    recorded as the last received value and put at the head of the history
    list, which is cut back by its last item when it exceeds 20. It is
    written to the OS clipboard exactly when sync is enabled and its
    content differs from the value last sent: never when the content
    equals [lastSentClip], never when sync is disabled. *)
Theorem inbound_update_written_unless_echo_or_sync_off (m : Model) (serverMsg : BaseMessage)
    (data : ClipboardUpdateData) :
  Type_ serverMsg = "clipboard_update" →
  RemarshalData decodeClipboardUpdate (Data serverMsg) = Some data →
  let r := Update m (ReceivedServerMsg serverMsg) in
  lastRcvdClip (modelOf r) = Content data
  ∧ head (histList (modelOf r)) = Some (Content data)
  ∧ histList (modelOf r)
    = (if Nat.ltb 20 (S (length (histList m)))
       then Content data :: take (length (histList m) - 1) (histList m)
       else Content data :: histList m)
  ∧ List.filter isClipboardWrite (cmdsOf r)
    = (if syncEnabled m && negb (String.eqb (Content data) (lastSentClip m))
       then [writeToClipboardCmd (Content data)] else [])
  ∧ (Content data = lastSentClip m → List.filter isClipboardWrite (cmdsOf r) = [])
  ∧ (syncEnabled m = false → List.filter isClipboardWrite (cmdsOf r) = [])
  ∧ (Content data ≠ lastSentClip m → syncEnabled m = true →
     In (writeToClipboardCmd (Content data)) (cmdsOf r)).
Proof.
  intros Ht Hd r.
  pose proof (updateServerMsg_clipboard_update m serverMsg data Ht Hd) as Hr.
  cbv zeta in Hr. change (updateServerMsg m serverMsg) with r in Hr.
  assert (histList (modelOf r)
          = (if Nat.ltb 20 (S (length (histList m)))
             then Content data :: take (length (histList m) - 1) (histList m)
             else Content data :: histList m)) as Hh.
  { rewrite Hr. unfold finish, modelOf. cbn [fst set_histList histList].
    unfold maxHistorySize. cbn [length].
    destruct (Nat.ltb 20 (S (length (histList m)))) eqn:E; [|done].
    apply Nat.ltb_lt in E.
    exact (RemoveItem_cons_last (Content data) (histList m) ltac:(lia)). }
  assert (List.filter isClipboardWrite (cmdsOf r)
          = (if syncEnabled m && negb (String.eqb (Content data) (lastSentClip m))
             then [writeToClipboardCmd (Content data)] else [])) as Hw.
  { rewrite Hr. unfold finish, cmdsOf. cbn [fst snd]. rewrite List.filter_app.
    destruct (syncEnabled m && negb (String.eqb (Content data) (lastSentClip m)));
      destruct (stateEqb _ Connecting); reflexivity. }
  split; [by rewrite Hr|].
  split; [rewrite Hh; by destruct (Nat.ltb 20 _)|].
  split; [exact Hh|]. split; [exact Hw|].
  split; [|split].
  - intros He. rewrite Hw, He, String.eqb_refl. by destruct (syncEnabled m).
  - intros Hs. by rewrite Hw, Hs.
  - intros Hne Hs. apply String.eqb_neq in Hne.
    assert (In (writeToClipboardCmd (Content data)) (List.filter isClipboardWrite (cmdsOf r)))
      as Hin by (rewrite Hw, Hs, Hne; by left).
    by apply filter_In in Hin as [Hin _].
Qed.

Lemma inbound_update_written_unless_echo_or_sync_off_witness :
  cmdsOf (Update laptop (ReceivedServerMsg inboundHello)) = [writeToClipboardCmd "hello"]
  ∧ In (writeToClipboardCmd "hello") (cmdsOf (Update laptop (ReceivedServerMsg inboundHello))).
Proof.
  split; [vm_compute; reflexivity|].
  refine (proj2 (proj2 (proj2 (proj2 (proj2 (proj2
    (inbound_update_written_unless_echo_or_sync_off laptop inboundHello
       (mkClipboardUpdateData "hello") _ _)))))) _ _);
    vm_compute; (reflexivity || discriminate).
Defined.

(** C6 as worded fails once the user has switched sync off (key "s"): an
    inbound value that differs from the value last sent is shown in the
    history and not written to the OS clipboard. *)
Lemma sync_off_update_not_written :
  let m := modelOf (Update laptop (KeyMsg "s" 0)) in
  let r := Update m (ReceivedServerMsg inboundHello) in
  syncEnabled m = false
  ∧ "hello" ≠ lastSentClip m
  ∧ histList (modelOf r) = ["hello"]
  ∧ cmdsOf r = [].
Proof. vm_compute. repeat split; (reflexivity || discriminate). Qed.

End ClientSpec.

(** ** Further properties of the server *)

Module ServerMore.
Import Server.

(** *** Admission *)

(** A client is handed to the hub only for a request that carries the
    configured key and whose upgrade succeeded; it then holds the fresh id
    and the upgraded connection. In particular a wrong or missing key and
    a failed upgrade register nobody. *)
Theorem register_needs_key_and_upgrade (st st' : State) (q : gmap string (list string))
    (upgrade : option ConnRef) (newID : string) (c : ClientInfo) :
  In (SendRegister c) (handleConnections st st' q upgrade newID) →
  queryGet q "apiKey" = apiKey st ∧ upgrade = Conn c ∧ is_Some upgrade ∧ ID c = newID.
Proof.
  unfold handleConnections.
  destruct (String.eqb_spec (queryGet q "apiKey") (apiKey st)) as [Hk|Hk]; cbn [negb].
  - destruct upgrade as [ws|]; [|by intros []].
    intros [H|H].
    + inversion H; subst. cbn. eauto.
    + exfalso. rewrite !in_app_iff in H.
      destruct (negb (String.eqb (currentClip st) "")),
               (Nat.ltb 0 (length (clipboardHistory st')));
        cbn [In] in H; intuition discriminate.
  - intros [H|[]]. discriminate.
Qed.

Lemma register_needs_key_and_upgrade_witness :
  queryGet ({["apiKey" := ["secret"]]} : gmap string (list string)) "apiKey" = "secret".
Proof.
  refine (proj1 (register_needs_key_and_upgrade (initState "secret") (initState "secret")
                   {["apiKey" := ["secret"]]} (Some 7) "id-1"
                   (mkClientInfo "id-1" (Some 7) "Unknown") _)).
  vm_compute. left. reflexivity.
Defined.

(** Registering a device under a fresh id and removing it again gives the
    registry back as it was and closes the device's connection once. *)
Theorem register_then_unregister (st : State) (c : ClientInfo) :
  clients st !! ID c = None →
  let st1 := fst (runHub st (Register c)) in
  clients st1 !! ID c = Some c
  ∧ fst (runHub st1 (Unregister c)) = st
  ∧ closesOf (Conn c) (snd (runHub st1 (Unregister c))) = 1.
Proof.
  intros Habs st1.
  assert (clients st1 !! ID c = Some c) as Hreg.
  { unfold st1. cbn [runHub fst withClients clients]. apply lookup_insert_eq. }
  split; [exact Hreg|].
  rewrite (ServerSpec.runHub_unregister_present st1 c Hreg). cbn [fst snd]. split.
  - unfold st1. cbn [runHub fst withClients clients currentClip clipboardHistory apiKey].
    rewrite delete_insert_id by done. by destruct st.
  - unfold closesOf. cbn [List.filter isClose broadcastDeviceListUpdate].
    by rewrite (proj2 (ServerSpec.connEqb_eq (Conn c) (Conn c)) eq_refl).
Qed.

Lemma register_then_unregister_witness :
  fst (runHub (fst (runHub threeDevices (Register (mkClientInfo "D" (Some 4) "delta"))))
         (Unregister (mkClientInfo "D" (Some 4) "delta")))
  = threeDevices.
Proof.
  refine (proj1 (proj2 (register_then_unregister threeDevices
                          (mkClientInfo "D" (Some 4) "delta") _))).
  vm_compute. reflexivity.
Defined.

(** *** The device list *)

(** The device list has one entry per registry entry, each carrying the
    id and hostname of a registered device and no connection. *)
Theorem deviceList_mirrors_registry (cs : gmap string ClientInfo) :
  length (deviceList cs) = size cs
  ∧ (∀ d, In d (deviceList cs) → Conn d = None)
  ∧ (∀ d, In d (deviceList cs)
          ↔ ∃ k e, cs !! k = Some e ∧ d = mkClientInfo (ID e) None (Hostname e)).
Proof.
  split; [|split].
  - unfold deviceList, activeClients. by rewrite length_map, length_fmap, length_map_to_list.
  - intros d Hd. apply ServerSpec.deviceList_In in Hd as (k & e & _ & ->). done.
  - apply ServerSpec.deviceList_In.
Qed.


(** *** Broadcast of clipboard updates *)

Lemma activeClients_In (cs : gmap string ClientInfo) (c : ClientInfo) :
  In c (activeClients cs) ↔ ∃ k, cs !! k = Some c.
Proof.
  unfold activeClients. rewrite <- list_elem_of_In, list_elem_of_fmap. split.
  - intros ([k e] & -> & H). exists k. by apply elem_of_map_to_list.
  - intros (k & H). exists (k, c). split; [done|]. by apply elem_of_map_to_list.
Qed.

(** A clipboard update built by the read loop is written to exactly the
    registered devices whose id differs from the sender's. *)
Theorem clipboard_update_reaches_all_others (st : State) (sender : ClientInfo)
    (content : string) (c : ClientInfo) (m' : BaseMessage) :
  In (WriteTo c m') (snd (runHub st (Broadcast (updateBroadcast sender content))))
  ↔ m' = updateBroadcast sender content ∧ registered st c ∧ ID c ≠ ID sender.
Proof.
  cbn [runHub snd]. rewrite ServerSpec.deliver_In, activeClients_In.
  unfold skipped, targetted, updateBroadcast, registered. cbn.
  destruct (String.eqb_spec (ID c) (ID sender)); cbn; intuition congruence.
Qed.

(** *** The read loop and the store *)

Lemma setIfChanged_cases (st : State) (x : string) :
  (currentClip st = x ∧ setIfChanged st x = (st, false))
  ∨ (currentClip st ≠ x
     ∧ setIfChanged st x
       = (mkState (clients st) x (take maxHistorySize (x :: clipboardHistory st)) (apiKey st),
          true)).
Proof.
  destruct (decide (currentClip st = x)) as [<-|Hne].
  - left. split; [done|]. apply ServerSpec.setIfChanged_unchanged.
  - right. split; [done|].
    pose proof (ServerSpec.setIfChanged_history st x Hne) as Hh.
    unfold setIfChanged in *. apply String.eqb_neq in Hne. rewrite Hne in *.
    cbn [negb fst clipboardHistory] in *. by rewrite Hh.
Qed.

Lemma handleText_cases (st : State) (client : ClientInfo) (msg0 : BaseMessage) :
  (fst (handleText st client msg0) = st
   ∧ ∀ m, In (SendBroadcast m) (snd (handleText st client msg0)) →
          Type_ m ≠ "clipboard_update")
  ∨ ∃ x, currentClip st ≠ x
         ∧ handleText st client msg0
           = (mkState (clients st) x (take maxHistorySize (x :: clipboardHistory st))
                (apiKey st),
              [SendBroadcast (updateBroadcast client x)]).
Proof.
  unfold handleText. cbn [Type_ Data SenderID].
  destruct (String.eqb (Type_ msg0) "clipboard_update") eqn:E1.
  { destruct (RemarshalData decodeClipboardUpdate (Data msg0)) as [[x]|];
      [|left; split; [done|by intros m []]].
    unfold clipboardUpdate. cbn [Content].
    destruct (setIfChanged_cases st x) as [[_ ->]|[Hne ->]].
    - left. split; [done|by intros m []].
    - right. by exists x. }
  apply String.eqb_neq in E1. left.
  destruct (String.eqb (Type_ msg0) "request_devices").
  { split; [done|]. intros m [H|[]]. discriminate. }
  destruct (String.eqb (Type_ msg0) "file_offer").
  { destruct (RemarshalData decodeFileOffer (Data msg0)); (split; [done|]).
    - by intros m [[= <-]|[]].
    - by intros m []. }
  destruct (String.eqb (Type_ msg0) "file_ack").
  { destruct (RemarshalData decodeFileAck (Data msg0)); (split; [done|]).
    - by intros m [[= <-]|[]].
    - by intros m []. }
  split; [done|by intros m []].
Qed.


Lemma handleFrame_keeps_registry (st : State) (client : ClientInfo) (f : Frame) :
  clients (fst (handleFrame st client f)) = clients st
  ∧ apiKey (fst (handleFrame st client f)) = apiKey st.
Proof.
  destruct f as [[j|]|n]; cbn [handleFrame]; try done.
  destruct (unmarshalBaseMessage j) as [msg0|]; [|done].
  destruct (handleText_cases st client msg0) as [[-> _]|(x & _ & ->)]; done.
Qed.

(** The read loop of a device never changes the registry or the key, and
    keeps the invariant of the store, however many frames it handles. *)
Theorem readLoop_keeps_registry_and_invariant (reads : list (option Frame)) (st : State)
    (client : ClientInfo) :
  clients (fst (readLoop st client reads)) = clients st
  ∧ apiKey (fst (readLoop st client reads)) = apiKey st
  ∧ (storeInv st → storeInv (fst (readLoop st client reads))).
Proof.
  revert st. induction reads as [|[f|] reads IH]; intros st; try done.
  cbn [readLoop].
  pose proof (handleFrame_keeps_registry st client f) as (Hc & Hk).
  pose proof (ServerSpec.handleFrame_storeInv st client f) as Hinv.
  destruct (handleFrame st client f) as [st1 out1]. cbn [fst] in *.
  specialize (IH st1). destruct (readLoop st1 client reads) as [st2 out2]. cbn [fst] in *.
  destruct IH as (IHc & IHk & IHinv).
  split; [congruence|]. split; [congruence|]. auto.
Qed.

Lemma readLoop_keeps_registry_and_invariant_witness :
  storeInv (fst (readLoop threeDevices devA [Some offerFrame; None; Some ackFrame])).
Proof.
  refine (proj2 (proj2 (readLoop_keeps_registry_and_invariant
                          [Some offerFrame; None; Some ackFrame] threeDevices devA)) _).
  split; [done|]. vm_compute. lia.
Defined.

(** The read loop ends at the first failed read: what would have been
    read after it has no effect. *)
Theorem readLoop_stops_at_read_error (pre post : list (option Frame)) (st : State)
    (client : ClientInfo) :
  readLoop st client (pre ++ None :: post) = readLoop st client pre.
Proof.
  revert st. induction pre as [|[f|] pre IH]; intros st; try done.
  cbn [app readLoop]. destruct (handleFrame st client f) as [st1 out1].
  by rewrite IH.
Qed.

(** The hub never changes the clipboard store or the key. *)
Theorem hub_keeps_store (evs : list HubEvent) (st : State) :
  currentClip (fst (runHubTrace st evs)) = currentClip st
  ∧ clipboardHistory (fst (runHubTrace st evs)) = clipboardHistory st
  ∧ apiKey (fst (runHubTrace st evs)) = apiKey st.
Proof.
  revert st. induction evs as [|ev evs IH]; intros st; [done|].
  cbn [runHubTrace].
  assert (currentClip (fst (runHub st ev)) = currentClip st
          ∧ clipboardHistory (fst (runHub st ev)) = clipboardHistory st
          ∧ apiKey (fst (runHub st ev)) = apiKey st) as (H1 & H2 & H3).
  { destruct ev as [c|c|m]; cbn [runHub]; [done| |done].
    destruct (clients st !! ID c) as [e|]; [|done].
    by destruct (connEqb (Conn e) (Conn c)). }
  destruct (runHub st ev) as [st1 out1]. cbn [fst] in *.
  specialize (IH st1). destruct (runHubTrace st1 evs) as [st2 out2]. cbn [fst] in *.
  destruct IH as (IH1 & IH2 & IH3). repeat split; congruence.
Qed.

(** *** Shape of the history *)

Lemma noAdjacentDup_take (n : nat) (l : list string) :
  noAdjacentDup l → noAdjacentDup (take n l).
Proof.
  revert n. induction l as [|a l IH]; intros n H; [by destruct n|].
  destruct n as [|n]; [done|]. cbn [take]. destruct H as [Ha Hl].
  split; [|by apply IH]. destruct l as [|b l]; [by destruct n|].
  destruct n; [done|]. exact Ha.
Qed.

Lemma setIfChanged_shape (st : State) (x : string) :
  headIsCurrent st → noAdjacentDup (clipboardHistory st) →
  headIsCurrent (fst (setIfChanged st x))
  ∧ noAdjacentDup (clipboardHistory (fst (setIfChanged st x))).
Proof.
  intros Hh Hn. destruct (setIfChanged_cases st x) as [[_ ->]|[Hne ->]]; [done|].
  cbn [fst]. split.
  - right. reflexivity.
  - cbn [clipboardHistory]. apply noAdjacentDup_take. split; [|done].
    destruct (clipboardHistory st) as [|b l] eqn:E; [done|].
    destruct Hh as [[Hnil _]|Hhead]; [congruence|].
    rewrite E in Hhead. cbn in Hhead. congruence.
Qed.

(** From the empty store, after any sequence of updates, the history
    never holds the same value twice in a row, and it is either still
    empty (with an empty current value) or headed by the current value,
    the empty string included. *)
Theorem history_has_no_repeats (key : string) (contents : list string) :
  let st := applyUpdates (initState key) contents in
  noAdjacentDup (clipboardHistory st) ∧ headIsCurrent st.
Proof.
  cbv zeta.
  assert (∀ st, headIsCurrent st → noAdjacentDup (clipboardHistory st) →
                noAdjacentDup (clipboardHistory (applyUpdates st contents))
                ∧ headIsCurrent (applyUpdates st contents)) as H.
  { induction contents as [|c contents IH]; intros st Hh Hn; [done|].
    destruct (setIfChanged_shape st c Hh Hn) as [Hh1 Hn1]. by apply IH. }
  apply H; [by left|done].
Qed.

(** *** Connections closed by the hub *)

(** The hub closes a connection only if it belongs to a device that was
    in the registry at the start or was registered during the run. *)
Theorem hub_closes_only_registered (evs : list HubEvent) (st : State)
    (conn : option ConnRef) :
  In (CloseConn conn) (snd (runHubTrace st evs)) →
  (∃ k e, clients st !! k = Some e ∧ Conn e = conn)
  ∨ (∃ c, In (Register c) evs ∧ Conn c = conn).
Proof.
  revert st. induction evs as [|ev evs IH]; intros st; [by intros []|].
  cbn [runHubTrace].
  assert (∀ k e, clients (fst (runHub st ev)) !! k = Some e →
                 clients st !! k = Some e ∨ ev = Register e) as Hstep.
  { intros k e. destruct ev as [c|c|m]; cbn [runHub]; [| |by left].
    - cbn [fst withClients clients]. rewrite lookup_insert.
      case_decide; [intros [= <-]; by right|by left].
    - destruct (clients st !! ID c) as [e'|]; [|by left].
      destruct (connEqb (Conn e') (Conn c)); [|by left].
      cbn [fst withClients clients]. rewrite lookup_delete. case_decide; [done|by left]. }
  assert (In (CloseConn conn) (snd (runHub st ev)) →
          ∃ k e, clients st !! k = Some e ∧ Conn e = conn) as Hnow.
  { destruct ev as [c|c|m]; cbn [runHub].
    - by intros [|[]].
    - destruct (clients st !! ID c) as [e'|] eqn:He; [|by intros [|[]]].
      destruct (connEqb (Conn e') (Conn c)) eqn:Hc; [|by intros [|[]]].
      apply ServerSpec.connEqb_eq in Hc. intros [[= <-]|[|[]]]; [|done].
      by exists (ID c), e'.
    - cbn [snd]. intros H. exfalso. rewrite ServerSpec.deliver_filter in H.
      apply in_map_iff in H as (? & ? & _). discriminate. }
  destruct (runHub st ev) as [st1 out1]. cbn [fst snd] in *.
  specialize (IH st1). destruct (runHubTrace st1 evs) as [st2 out2]. cbn [fst snd] in *.
  intros H. apply in_app_or in H as [H|H]; [by left; apply Hnow|].
  destruct (IH H) as [(k & e & He & Hc)|(c & Hin & Hc)].
  - destruct (Hstep k e He) as [Hold| ->].
    + left. by exists k, e.
    + right. exists e. split; [by left|done].
  - right. exists c. split; [by right|done].
Qed.

Lemma hub_closes_only_registered_witness :
  (∃ k e, clients threeDevices !! k = Some e ∧ Conn e = Some 2)
  ∨ (∃ c, In (Register c) [Unregister devB] ∧ Conn c = Some 2).
Proof.
  refine (hub_closes_only_registered [Unregister devB] threeDevices (Some 2) _).
  vm_compute. left. reflexivity.
Defined.

End ServerMore.

(** ** Further properties of the client *)

Module ClientMore.
Import Client.

(** *** Focus *)

Lemma tab_focus (m : Model) (k : nat) :
  focus (modelOf (Update m (KeyMsg "tab" k)))
  = paneOfNum ((paneNum (focus m) + 1) mod NumPanes).
Proof. reflexivity. Qed.

Lemma shift_tab_focus (m : Model) (k : nat) :
  focus (modelOf (Update m (KeyMsg "shift+tab" k)))
  = paneOfNum ((paneNum (focus m) - 1 + NumPanes) mod NumPanes).
Proof. reflexivity. Qed.

(** Tab and shift+tab undo each other, and three tabs come back to the
    pane they started from. *)
Theorem focus_keys_cycle (m : Model) (k1 k2 k3 : nat) :
  focus (modelOf (Update (modelOf (Update m (KeyMsg "tab" k1))) (KeyMsg "shift+tab" k2)))
  = focus m
  ∧ focus (modelOf (Update (modelOf (Update m (KeyMsg "shift+tab" k1))) (KeyMsg "tab" k2)))
    = focus m
  ∧ focus (modelOf (Update (modelOf (Update (modelOf (Update m (KeyMsg "tab" k1)))
                                       (KeyMsg "tab" k2))) (KeyMsg "tab" k3)))
    = focus m.
Proof.
  repeat (rewrite tab_focus || rewrite shift_tab_focus).
  destruct (focus m); repeat split; reflexivity.
Qed.

(** *** The clipboard poll *)

(** What [Update] returns for the result of a clipboard poll. *)
Lemma poll_result (m : Model) (content : string) (changed : bool) (err : option string) :
  Update m (LocalClipboardCheckedMsg content changed err)
  = if negb (stateEqb (connectedState m) Connected) then (m, [], [])
    else match err with
         | Some _ => (m, [], [])
         | None =>
             if syncEnabled m && changed && negb (String.eqb content (lastRcvdClip m))
             then (set_lastSentClip content
                     (logf "Local clipboard changed, sending update..." [] m),
                   [sendWebsocketMessageCmd (wsConn m) (localUpdate content);
                    TickCheckClipboard content], [])
             else (m, [TickCheckClipboard (lastSentClip m)], [])
         end.
Proof.
  cbn [Update]. unfold updateClipboardChecked, finish.
  destruct (connectedState m) eqn:E; cbn [stateEqb negb]; try reflexivity.
  destruct err; [reflexivity|].
  destruct (syncEnabled m && changed && negb (String.eqb content (lastRcvdClip m)));
    cbv zeta;
    repeat match goal with
           | |- context [connectedState (set_lastSentClip ?v ?m0)] =>
               change (connectedState (set_lastSentClip v m0)) with (connectedState m)
           end;
    rewrite ?E; cbn [stateEqb app]; reflexivity.
Qed.

(** The next poll is scheduled exactly when the agent is connected and
    the clipboard could be read: a read error, like a poll result that
    arrives while not connected, ends the polling and changes nothing. *)
Theorem poll_goes_on_iff_connected_and_read (m : Model) (content : string) (changed : bool)
    (err : option string) :
  let r := Update m (LocalClipboardCheckedMsg content changed err) in
  existsb isTick (cmdsOf r)
  = stateEqb (connectedState m) Connected
    && match err with Some _ => false | None => true end
  ∧ (existsb isTick (cmdsOf r) = false → r = (m, [], [])).
Proof.
  cbv zeta. rewrite poll_result.
  destruct (stateEqb (connectedState m) Connected); cbn [negb andb]; [|done].
  destruct err; [done|].
  by destruct (syncEnabled m && changed && negb (String.eqb content (lastRcvdClip m))).
Qed.

Lemma poll_goes_on_iff_connected_and_read_witness :
  Update laptop (run_checkLocalClipboardCmd "" (inl "copied")) = (laptop, [], []).
Proof.
  refine (proj2 (poll_goes_on_iff_connected_and_read laptop "copied" true None) _).
  vm_compute. reflexivity.
Defined.

(** A local change is sent once: the agent sends it, remembers it as last
    sent and schedules the next poll against it, and that poll, finding
    the same clipboard, sends nothing. *)
Theorem local_change_is_sent_once (m : Model) (last content : string) :
  connectedState m = Connected → syncEnabled m = true →
  content ≠ last → content ≠ lastRcvdClip m →
  let r := Update m (run_checkLocalClipboardCmd last (inl content)) in
  cmdsOf r = [sendWebsocketMessageCmd (wsConn m) (localUpdate content);
              TickCheckClipboard content]
  ∧ lastSentClip (modelOf r) = content
  ∧ cmdsOf (Update (modelOf r) (run_checkLocalClipboardCmd content (inl content)))
    = [TickCheckClipboard content].
Proof.
  intros Hc Hs Hl Hr. cbv zeta. unfold run_checkLocalClipboardCmd.
  apply String.eqb_neq in Hl, Hr. rewrite Hl, String.eqb_refl. cbn [negb].
  rewrite !poll_result. rewrite Hc, Hs, Hr. cbn [stateEqb negb andb].
  split; [done|]. split; [done|].
  unfold modelOf, cmdsOf. cbn [fst snd].
  change (connectedState (set_lastSentClip content
            (logf "Local clipboard changed, sending update..." [] m)))
    with (connectedState m).
  rewrite Hc. cbn [stateEqb negb andb]. rewrite andb_false_r. reflexivity.
Qed.

Lemma local_change_is_sent_once_witness :
  let m := modelOf (Update laptop (run_connectCmd (DialOk 5 1))) in
  cmdsOf (Update m (run_checkLocalClipboardCmd "" (inl "copied")))
  = [sendWebsocketMessageCmd (Some 5) (localUpdate "copied"); TickCheckClipboard "copied"].
Proof.
  intros m.
  refine (proj1 (local_change_is_sent_once m "" "copied" _ _ _ _));
    vm_compute; (reflexivity || discriminate).
Defined.

(** A value received from the server is never sent back: whatever the
    agent compared the clipboard with, the poll that finds the received
    value in the clipboard issues no send. *)
Theorem received_value_is_not_sent_back (m : Model) (serverMsg : BaseMessage)
    (data : ClipboardUpdateData) (last : string) :
  Type_ serverMsg = "clipboard_update" →
  RemarshalData decodeClipboardUpdate (Data serverMsg) = Some data →
  let m1 := modelOf (Update m (ReceivedServerMsg serverMsg)) in
  existsb isSend
    (cmdsOf (Update m1 (run_checkLocalClipboardCmd last (inl (Content data))))) = false.
Proof.
  intros Ht Hd m1.
  assert (lastRcvdClip m1 = Content data) as Hrcv.
  { unfold m1. cbn [Update].
    rewrite (ClientSpec.updateServerMsg_clipboard_update m serverMsg data Ht Hd).
    reflexivity. }
  unfold run_checkLocalClipboardCmd.
  destruct (negb (String.eqb (Content data) last)); rewrite poll_result, Hrcv.
  - rewrite String.eqb_refl. cbn [negb]. rewrite andb_false_r.
    destruct (negb (stateEqb (connectedState m1) Connected)); reflexivity.
  - rewrite andb_false_r. cbn [andb].
    destruct (negb (stateEqb (connectedState m1) Connected)); reflexivity.
Qed.

Lemma received_value_is_not_sent_back_witness :
  existsb isSend
    (cmdsOf (Update (modelOf (Update laptop (ReceivedServerMsg inboundHello)))
               (run_checkLocalClipboardCmd "" (inl "hello")))) = false.
Proof.
  refine (received_value_is_not_sent_back laptop inboundHello
            (mkClipboardUpdateData "hello") "" _ _); vm_compute; reflexivity.
Defined.

(** *** File offers *)

Lemma answer_key (m : Model) (k : nat) (allow : bool) :
  Update m (KeyMsg (if allow then "a" else "r") k)
  = match incomingFileOffer m with
    | Some offer =>
        (set_incomingFileOffer None
           (if allow
            then logf "Accepting file offer for '%s' from %s"
                   [LStr (OfferFilename offer); LStr (devicesMapGet m (offeringClientID m))] m
            else logf "Rejecting file offer for '%s'" [LStr (OfferFilename offer)] m),
         [sendWebsocketMessageCmd (wsConn m)
            (mkBaseMessage "file_ack"
               (AFileAckData (mkFileAckData (OfferFilename offer) allow (offeringClientID m)))
               "")], [])
    | None => (m, [], [])
    end.
Proof. destruct allow; cbn [Update]; unfold updateKey; destruct (incomingFileOffer m); reflexivity. Qed.

Lemma offer_received (m : Model) (serverMsg : BaseMessage) (data : FileOfferData) :
  Type_ serverMsg = "file_offer" →
  RemarshalData decodeFileOffer (Data serverMsg) = Some data →
  ∃ m0, Update m (ReceivedServerMsg serverMsg)
        = finish (set_offeringClientID (SenderID serverMsg)
                    (set_incomingFileOffer (Some data) m0)) [] []
        ∧ wsConn m0 = wsConn m.
Proof.
  intros Ht Hd. cbn [Update]. unfold updateServerMsg. cbv zeta.
  rewrite Ht, Hd. eexists. split; [reflexivity|reflexivity].
Qed.

(** An offer from device S that is accepted (key "a") or rejected (key
    "r") is answered on the agent's connection with a file_ack naming the
    offered file, the decision, and S as source; the pending offer is then
    gone, and a further "a" or "r" sends nothing. *)
Theorem offer_is_answered_once (m : Model) (serverMsg : BaseMessage) (data : FileOfferData)
    (allow again : bool) (k k' : nat) :
  Type_ serverMsg = "file_offer" →
  RemarshalData decodeFileOffer (Data serverMsg) = Some data →
  let m1 := modelOf (Update m (ReceivedServerMsg serverMsg)) in
  let r := Update m1 (KeyMsg (if allow then "a" else "r") k) in
  incomingFileOffer m1 = Some data
  ∧ cmdsOf r
    = [sendWebsocketMessageCmd (wsConn m)
         (mkBaseMessage "file_ack"
            (AFileAckData (mkFileAckData (OfferFilename data) allow (SenderID serverMsg))) "")]
  ∧ incomingFileOffer (modelOf r) = None
  ∧ cmdsOf (Update (modelOf r) (KeyMsg (if again then "a" else "r") k')) = [].
Proof.
  intros Ht Hd m1 r.
  destruct (offer_received m serverMsg data Ht Hd) as (m0 & Hu & Hconn).
  assert (incomingFileOffer m1 = Some data ∧ offeringClientID m1 = SenderID serverMsg
          ∧ wsConn m1 = wsConn m) as (Ho & Hs & Hc).
  { unfold m1. rewrite Hu. unfold finish, modelOf. cbn [fst]. by rewrite <- Hconn. }
  split; [exact Ho|].
  assert (incomingFileOffer (modelOf r) = None) as Hnone.
  { unfold r. rewrite answer_key, Ho. reflexivity. }
  split; [unfold r; rewrite answer_key, Ho, Hs, Hc; reflexivity|].
  split; [exact Hnone|].
  rewrite answer_key, Hnone. reflexivity.
Qed.

Lemma offer_is_answered_once_witness :
  let offer := mkBaseMessage "file_offer"
                 (AJSON (JObject [("filename", JString "x.txt"); ("filesize", JNumber 100)]))
                 "A" in
  cmdsOf (Update (modelOf (Update laptop (ReceivedServerMsg offer))) (KeyMsg "a" 0))
  = [sendWebsocketMessageCmd None
       (mkBaseMessage "file_ack" (AFileAckData (mkFileAckData "x.txt" true "A")) "")].
Proof.
  intros offer.
  refine (proj1 (proj2 (offer_is_answered_once laptop offer (mkFileOfferData "x.txt" 100 "")
                          true true 0 0 _ _))); vm_compute; reflexivity.
Defined.

(** *** Connection fields *)

Lemma Update_keeps_connection (m : Model) (msg : Msg) :
  statusOf msg = None →
  wsConn (modelOf (Update m msg)) = wsConn m
  ∧ wsCtxCancel (modelOf (Update m msg)) = wsCtxCancel m.
Proof.
  destruct msg; cbn [statusOf]; try discriminate; intros _; cbn [Update];
    unfold updateKey, updateServerMsg, updateClipboardChecked, finish, modelOf;
    ClientSpec.branches; split; reflexivity.
Qed.

Lemma arrives_status (msg : Msg) (s : ConnectionState) :
  arrives msg → statusOf msg = Some s →
  (s = Disconnected ∧ ∃ e, msg = ConnectionStatusMsg Disconnected e None None)
  ∨ ∃ conn cancel, msg = ConnectionStatusMsg Connected None (Some conn) (Some cancel).
Proof.
  intros [o|msg' H].
  - destruct o; cbn; try discriminate; intros [= <-]; eauto.
  - destruct H as [msg' H|r msg' H|last read|werr|conn werr msg' H].
    + by destruct H.
    + destruct r as [[|] e|[[j|]|n]]; simpl in H; inversion H; subst;
        try discriminate; try (intros [= <-]; left; eauto).
      destruct (unmarshalBaseMessage j); inversion H1; discriminate.
    + unfold run_checkLocalClipboardCmd. by ClientSpec.branches.
    + by destruct werr.
    + destruct conn, werr; simpl in H; by inversion H.
Qed.

Lemma Update_connInv (m : Model) (msg : Msg) :
  connInv m → arrives msg → connInv (modelOf (Update m msg)).
Proof.
  intros Hinv Harr. destruct (statusOf msg) as [s|] eqn:Hs.
  - destruct (arrives_status msg s Harr Hs) as [[-> [e ->]]|(conn & cancel & ->)].
    + right. cbn [Update]. unfold updateConnectionStatus, finish, modelOf.
      cbn [stateEqb andb]. destruct e; split; try split; reflexivity.
    + left. cbn [Update]. unfold updateConnectionStatus, finish, modelOf.
      cbn [stateEqb andb]. split; [reflexivity|]. split; eexists; reflexivity.
  - unfold connInv. rewrite ClientSpec.Update_connectedState, Hs.
    destruct (Update_keeps_connection m msg Hs) as [-> ->]. exact Hinv.
Qed.

(** In every run of the agent from its initial model, the connection
    handle and the cancel function are held exactly while the state is
    [Connected] and are both cleared while it is [Disconnected]; the state
    [Connecting] is never entered. *)
Theorem connection_fields_follow_state (serverURL key host : string) (msgs : list Msg) :
  Forall arrives msgs →
  connInv (runUpdates (NewModel serverURL key host) msgs)
  ∧ connectedState (runUpdates (NewModel serverURL key host) msgs) ≠ Connecting.
Proof.
  intros Hm.
  assert (∀ m, connInv m → connInv (runUpdates m msgs)) as H.
  { induction Hm as [|msg msgs Hmsg Hm IH]; intros m Hinv; [done|].
    cbn [runUpdates fold_left]. apply IH. by apply Update_connInv. }
  assert (connInv (runUpdates (NewModel serverURL key host) msgs)) as Hinv.
  { apply H. right. done. }
  split; [exact Hinv|]. destruct Hinv as [[-> _]|[-> _]]; discriminate.
Qed.

Lemma connection_fields_follow_state_witness :
  connInv (runUpdates laptop
             [run_connectCmd (DialOk 5 1); KeyMsg "s" 0;
              ConnectionStatusMsg Disconnected None None None]).
Proof.
  refine (proj1 (connection_fields_follow_state "ws://hub:8080/ws" "secret" "laptop" _ _)).
  apply Forall_cons; split; [apply arrives_connect|].
  apply Forall_cons; split; [apply arrives_later, later_terminal, terminal_key|].
  apply Forall_cons; split;
    [apply arrives_later, (later_listener (ReadFailed false "eof")); reflexivity|].
  apply Forall_nil_2.
Defined.

(** *** The log buffer *)

Lemma logf_bounded (fmt : string) (a : list LogArg) (m : Model) :
  length (logMessages (logf fmt a m)) ≤ maxLogLines.
Proof.
  unfold logf. cbn [set_logMessages logMessages].
  destruct (Nat.ltb maxLogLines (length (logMessages m ++ [mkLogLine fmt a]))) eqn:E.
  - apply Nat.ltb_lt in E. rewrite length_drop. lia.
  - by apply Nat.ltb_ge in E.
Qed.

Ltac peel_log :=
  repeat match goal with
         | |- context [logMessages (?f ?v ?m0)] =>
             progress change (logMessages (f v m0)) with (logMessages m0)
         end.

(** [Update] never lets the log grow beyond 200 lines. *)
Theorem log_stays_bounded (m : Model) (msg : Msg) :
  length (logMessages m) ≤ 200 →
  length (logMessages (modelOf (Update m msg))) ≤ 200.
Proof.
  intros Hm. pose proof logf_bounded as Hb. unfold maxLogLines in Hb.
  destruct msg; cbn [Update];
    unfold updateKey, updateConnectionStatus, updateServerMsg, updateClipboardChecked,
      finish, modelOf;
    ClientSpec.branches; cbn [fst]; peel_log; first [exact Hm | apply Hb].
Qed.

Lemma log_stays_bounded_witness :
  length (logMessages (modelOf (Update laptop (LogMsg "Local clipboard updated.")))) ≤ 200.
Proof.
  refine (log_stays_bounded laptop (LogMsg "Local clipboard updated.") _).
  vm_compute. lia.
Defined.

(** *** Messages from the server *)

(** Handling a message from the server never makes the agent send
    anything, and asks for a clipboard write only for a clipboard_update. *)
Theorem server_message_never_answered (m : Model) (serverMsg : BaseMessage) :
  existsb isSend (cmdsOf (Update m (ReceivedServerMsg serverMsg))) = false
  ∧ (existsb isClipboardWrite (cmdsOf (Update m (ReceivedServerMsg serverMsg))) = true →
     Type_ serverMsg = "clipboard_update").
Proof.
  cbn [Update]. unfold updateServerMsg, finish, cmdsOf. cbv zeta.
  destruct (String.eqb_spec (Type_ serverMsg) "clipboard_update") as [Ht|Ht].
  - split; [|done]. ClientSpec.branches; reflexivity.
  - split; ClientSpec.branches; (reflexivity || discriminate).
Qed.

Lemma server_message_never_answered_witness :
  Type_ inboundHello = "clipboard_update".
Proof.
  refine (proj2 (server_message_never_answered laptop inboundHello) _).
  vm_compute. reflexivity.
Defined.

Lemma Update_keeps_history (m : Model) (msg : Msg) :
  match msg with
  | ReceivedServerMsg _ => True
  | _ => histList (modelOf (Update m msg)) = histList m
  end.
Proof.
  destruct msg; try exact I; cbn [Update];
    unfold updateKey, updateConnectionStatus, updateClipboardChecked, finish, modelOf;
    ClientSpec.branches; reflexivity.
Qed.

Lemma serverMsg_history (m : Model) (serverMsg : BaseMessage) :
  (Type_ serverMsg = "clipboard_update"
   ∧ ∃ data, RemarshalData decodeClipboardUpdate (Data serverMsg) = Some data)
  ∨ (Type_ serverMsg = "clipboard_history"
     ∧ ∃ data, RemarshalData decodeClipboardHistory (Data serverMsg) = Some data
               ∧ histList (modelOf (Update m (ReceivedServerMsg serverMsg))) = History data)
  ∨ histList (modelOf (Update m (ReceivedServerMsg serverMsg))) = histList m.
Proof.
  cbn [Update]. unfold updateServerMsg. cbv zeta.
  destruct (String.eqb_spec (Type_ serverMsg) "clipboard_update") as [Ht|Ht].
  { destruct (RemarshalData decodeClipboardUpdate (Data serverMsg)) as [data|];
      [left; eauto|right; right; reflexivity]. }
  destruct (String.eqb_spec (Type_ serverMsg) "clipboard_history") as [Hh|Hh].
  { destruct (RemarshalData decodeClipboardHistory (Data serverMsg)) as [data|];
      [right; left; eauto|right; right; reflexivity]. }
  right. right. unfold finish, modelOf. ClientSpec.branches; reflexivity.
Qed.

(** The history shown by the agent holds at most 20 items after any
    message, provided it did before and provided a clipboard_history
    message, which replaces the list, carries at most 20. *)
Theorem history_display_stays_bounded (m : Model) (msg : Msg) :
  length (histList m) ≤ 20 →
  (∀ serverMsg data, msg = ReceivedServerMsg serverMsg →
     Type_ serverMsg = "clipboard_history" →
     RemarshalData decodeClipboardHistory (Data serverMsg) = Some data →
     length (History data) ≤ 20) →
  length (histList (modelOf (Update m msg))) ≤ 20.
Proof.
  intros Hm Hh. pose proof (Update_keeps_history m msg) as Hk.
  destruct msg as [| | | |serverMsg| | | |]; try (rewrite Hk; exact Hm). clear Hk.
  destruct (serverMsg_history m serverMsg)
    as [[Ht [data Hd]]|[[Ht (data & Hd & ->)]| ->]]; [|by eapply Hh|exact Hm].
  cbn [Update]. rewrite (ClientSpec.updateServerMsg_clipboard_update m serverMsg data Ht Hd).
  unfold finish, modelOf. cbn [fst set_histList histList]. unfold maxHistorySize.
  destruct (Nat.ltb 20 (length (Content data :: histList m))) eqn:E.
  - apply Nat.ltb_lt in E. cbn [length] in E.
    rewrite (ClientSpec.RemoveItem_cons_last (Content data) (histList m)) by lia.
    cbn [length]. rewrite length_take. lia.
  - by apply Nat.ltb_ge in E.
Qed.

Lemma history_display_stays_bounded_witness :
  length (histList (modelOf (Update laptop (ReceivedServerMsg inboundHello)))) ≤ 20.
Proof.
  refine (history_display_stays_bounded laptop (ReceivedServerMsg inboundHello) _ _).
  - vm_compute. lia.
  - intros serverMsg data [= <-]. discriminate.
Defined.

End ClientMore.

(** ** Properties of server and client together *)

Module SystemSpec.

(** *** Encoding and decoding *)










(** *** The device list, from the registry to the client *)








(** *** A clipboard value, from one clipboard to another *)





(** *** The history, from the server to a new client *)




End SystemSpec.
